(** * Users and products HTTP services: validation and persistence mapping

    A shallow embedding of the two Express routers of the repository
    ([src/routes/users.js]: the users router, and the products server that
    follows it in the same file) together with the parts of the JavaScript
    runtime and of the schema library that the handlers call.

    Conventions of the embedding.
    - A JavaScript string is a [string]: a sequence of code units, here
      restricted to the range 0..255.
    - A JavaScript number that comes out of [parseInt] is a [JsInt]: [NaN],
      an infinity, or an integer that a double holds ([toNumber] rounds the
      integer read to the nearest double).  A number of a parsed body is
      the rational ([Q]) that the parsed double holds, and a stored price the
      rational that the column holds; an infinite number in a body is not
      modelled.  The arithmetic of the handlers is that of doubles
      ([Double], [roundQ], [fadd], [fmul]).  Signed zeros are not told
      apart.
    - A handler is a function from the state of the store to a response and a
      new state.  The store is reached through an interface (a record of
      operations that may throw), so that what is proved of a handler for every
      implementation of the interface also holds when the database fails.
    - [req.log.error] and [logger.info] write to the log only; they are left
      out, the response and the store do not depend on them. *)

From Stdlib Require Import String Ascii List ZArith QArith Bool Lia.
From Stdlib Require Import DecimalString DecimalPos Permutation.
Import ListNotations.

Open Scope string_scope.
Open Scope list_scope.
Open Scope Z_scope.

(* ------------------------------------------------------------------ *)
(** * JavaScript primitives *)

Module Js.

(** Result of [parseInt]: not-a-number, an integer that a double holds, or
    an infinity. *)
Inductive JsInt : Type :=
| NaN
| Num (z : Z)
| Infinity (negative : bool).

(** The quotient [N / D] rounded to the nearest integer, to the even one on
    a tie ([0 <= N], [0 < D]). *)
Definition nearest (N D : Z) : Z :=
  let m0 := N / D in
  let r := N mod D in
  if (D <? 2 * r) || ((2 * r =? D) && Z.odd m0) then m0 + 1 else m0.

(** The number (a double) that stands for the integer [z]: [z] itself below
    2^53 in magnitude, else [z] rounded to 53 significant bits, to nearest and
    to even on a tie, and an infinity from 2^1024. *)
Definition toNumber (z : Z) : JsInt :=
  let a := Z.abs z in
  if a <? 2 ^ 53 then Num z
  else
    let e := Z.log2 a - 52 in
    let m := nearest a (2 ^ e) in
    if 2 ^ 1024 <=? m * 2 ^ e then Infinity (z <? 0)
    else Num (Z.sgn z * (m * 2 ^ e)).

(** White space and line terminators, as [String.prototype.trim] and
    [parseInt] skip them (code units up to 255: TAB, LF, VT, FF, CR, SP,
    NBSP). *)
Definition isWhiteSpace (c : ascii) : bool :=
  let n := Z.of_nat (nat_of_ascii c) in
  ((9 <=? n) && (n <=? 13)) || (n =? 32) || (n =? 160).

Fixpoint trimStart (s : string) : string :=
  match s with
  | EmptyString => EmptyString
  | String c s' => if isWhiteSpace c then trimStart s' else s
  end.

Fixpoint rev_string (s acc : string) : string :=
  match s with
  | EmptyString => acc
  | String c s' => rev_string s' (String c acc)
  end.

Definition trimEnd (s : string) : string :=
  rev_string (trimStart (rev_string s EmptyString)) EmptyString.

(** [String.prototype.trim]. *)
Definition trim (s : string) : string := trimEnd (trimStart s).

(** Value of a digit character in radices up to 36. *)
Definition digitValue (c : ascii) : option Z :=
  let n := Z.of_nat (nat_of_ascii c) in
  if (48 <=? n) && (n <=? 57) then Some (n - 48)
  else if (97 <=? n) && (n <=? 122) then Some (n - 87)
  else if (65 <=? n) && (n <=? 90) then Some (n - 55)
  else None.

(** The longest prefix of radix-[R] digits, read as a number; [acc] is [None]
    until a digit has been read. *)
Fixpoint parseDigits (R : Z) (s : string) (acc : option Z) : option Z :=
  match s with
  | EmptyString => acc
  | String c s' =>
      match digitValue c with
      | Some d =>
          if d <? R
          then parseDigits R s' (Some (R * match acc with Some a => a | None => 0 end + d))
          else acc
      | None => acc
      end
  end.

Definition stripSign (s : string) : Z * string :=
  match s with
  | String "-" s' => (-1, s')
  | String "+" s' => (1, s')
  | _ => (1, s)
  end.

Definition stripHexPrefix (s : string) : option string :=
  match s with
  | String "0" (String "x" s') => Some s'
  | String "0" (String "X" s') => Some s'
  | _ => None
  end.

(** [parseInt(string, radix)]; [radix = None] is a call with one argument. *)
Definition parseInt (s : string) (radix : option Z) : JsInt :=
  let '(sign, s1) := stripSign (trimStart s) in
  let r := match radix with Some r => r | None => 0 end in
  if negb (r =? 0) && ((r <? 2) || (36 <? r)) then NaN
  else
    let stripPrefix := (r =? 0) || (r =? 16) in
    let R := if r =? 0 then 10 else r in
    let '(R, s2) :=
      if stripPrefix
      then match stripHexPrefix s1 with
           | Some s' => (16, s')
           | None => (R, s1)
           end
      else (R, s1) in
    match parseDigits R s2 None with
    | Some n => toNumber (sign * n)
    | None => NaN
    end.

(** [isNaN] on a [parseInt] result. *)
Definition isNaN (n : JsInt) : bool :=
  match n with NaN => true | _ => false end.

(** [Number.isSafeInteger] on an integer. *)
Definition isSafeInteger (n : Z) : bool := Z.abs n <? 2 ^ 53.

(** [Number.isInteger] on a rational. *)
Definition isInteger (q : Q) : bool := (Qden (Qred q) =? 1)%positive.

(** The integer a rational stands for, when it is one. *)
Definition toInteger (q : Q) : option Z :=
  if isInteger q then Some (Qnum (Qred q)) else None.

(** The string of a safe integer, as a template literal prints it
    ([`${id}`]): decimal digits, with a minus sign before a negative one.
    [None] for the other numbers, whose printing (in decimal up to 10^21, with
    an exponent from there) is not modelled. *)
Definition toString (n : Z) : option string :=
  if isSafeInteger n then Some (NilZero.string_of_int (Z.to_int n)) else None.

(** A number of the arithmetic: not-a-number, an infinity, or the rational
    that a finite double holds (reduced). *)
Inductive Double : Type :=
| DNaN
| DInf (negative : bool)
| DFin (q : Q).

(** The exponent of the leading bit of [a / d]: the [k] with
    [2^k <= a / d < 2^(k+1)] ([0 < a], [0 < d]). *)
Definition binade (a d : Z) : Z :=
  let k0 := Z.log2 a - Z.log2 d in
  if (if 0 <=? k0 then d * 2 ^ k0 <=? a else d <=? a * 2 ^ (- k0))
  then k0 else k0 - 1.

(** The double nearest to the rational [q] (to even on a tie): 53 significant
    bits, the exponent of the last bit not below -1074, an infinity from
    2^1024. *)
Definition roundQ (q : Q) : Double :=
  let q := Qred q in
  let n := Qnum q in
  let d := Zpos (Qden q) in
  if n =? 0 then DFin 0
  else
    let a := Z.abs n in
    let e := Z.max (binade a d - 52) (-1074) in
    let m := if e <? 0 then nearest (a * 2 ^ (- e)) d else nearest a (d * 2 ^ e) in
    if (0 <=? e) && (2 ^ 1024 <=? m * 2 ^ e) then DInf (n <? 0)
    else if e <? 0 then DFin (Qred (Qmake (Z.sgn n * m) (Z.to_pos (2 ^ (- e)))))
    else DFin (inject_Z (Z.sgn n * (m * 2 ^ e))).

(** [x + y] on doubles. *)
Definition fadd (x y : Double) : Double :=
  match x, y with
  | DNaN, _ | _, DNaN => DNaN
  | DInf s, DInf t => if Bool.eqb s t then DInf s else DNaN
  | DInf s, DFin _ | DFin _, DInf s => DInf s
  | DFin a, DFin b => roundQ (a + b)
  end.

(** [x * y] on doubles. *)
Definition fmul (x y : Double) : Double :=
  match x, y with
  | DNaN, _ | _, DNaN => DNaN
  | DInf s, DInf t => DInf (xorb s t)
  | DInf s, DFin b | DFin b, DInf s =>
      if Qnum b =? 0 then DNaN else DInf (xorb s (Qnum b <? 0))
  | DFin a, DFin b => roundQ (a * b)
  end.

End Js.

(* ------------------------------------------------------------------ *)
(** * JSON values: the parsed request body *)

#[local] Set Warnings "-register-all".

Inductive Json : Type :=
| JNull
| JBool (b : bool)
| JNum (q : Q)
| JStr (s : string)
| JArr (items : list Json)
| JObj (members : list (string * Json)).

(** Property lookup on a parsed object (its keys are distinct); [None] is
    [undefined]. *)
Fixpoint lookup {A : Type} (k : string) (kvs : list (string * A)) : option A :=
  match kvs with
  | [] => None
  | (k', v) :: rest => if String.eqb k k' then Some v else lookup k rest
  end.

(* ------------------------------------------------------------------ *)
(** * The schema library (zod), as far as the routers use it *)

Module Zod.

Inductive IssueCode : Type :=
| invalid_type
| too_small
| too_big
| invalid_string
| custom.

(** An entry of [error.errors].  [message] is [Some] where the source gives
    the text and [None] where the library's default text is used. *)
Record ZodIssue : Type := mkIssue {
  code : IssueCode;
  path : list string;
  message : option string
}.

Inductive StringCheck : Type :=
| Min (n : nat) (msg : option string)        (* .min(n, msg) *)
| Max (n : nat) (msg : option string)        (* .max(n, msg) *)
| Email (regex : string -> bool).            (* .email() *)

Inductive NumberCheck : Type :=
| Positive (msg : option string)             (* .positive(msg) *)
| Int                                        (* .int() *)
| Nonnegative (msg : option string).         (* .nonnegative(msg) *)

(** A field of an object schema: [z.string()] or [z.number()] with its chain
    of checks, and whether [.optional()] wraps it. *)
Record Field (C : Type) : Type := mkField {
  checks : list C;
  optional : bool
}.
Arguments mkField {C} _ _.
Arguments checks {C} _.
Arguments optional {C} _.

Definition z_string (cs : list StringCheck) : Field StringCheck := mkField cs false.
Definition z_number (cs : list NumberCheck) : Field NumberCheck := mkField cs false.
Definition z_optional {C} (f : Field C) : Field C := mkField (checks f) true.

(** The issues one check raises on a string. *)
Definition checkString (p : list string) (s : string) (c : StringCheck) : list ZodIssue :=
  match c with
  | Min n msg => if (String.length s <? n)%nat then [mkIssue too_small p msg] else []
  | Max n msg => if (n <? String.length s)%nat then [mkIssue too_big p msg] else []
  | Email regex => if regex s then [] else [mkIssue invalid_string p None]
  end.

(** The issues one check raises on a number. *)
Definition checkNumber (p : list string) (q : Q) (c : NumberCheck) : list ZodIssue :=
  match c with
  | Positive msg => if Qle_bool q 0 then [mkIssue too_small p msg] else []
  | Int => if Js.isInteger q then [] else [mkIssue invalid_type p None]
  | Nonnegative msg => if Qle_bool 0 q then [] else [mkIssue too_small p msg]
  end.

(** Parsing the value found under key [k] ([None]: the key is absent).  All
    the checks run; the value is kept when no issue was raised. *)
Definition parseString (f : Field StringCheck) (k : string) (v : option Json)
  : list ZodIssue * option string :=
  match v with
  | None => if optional f then ([], None) else ([mkIssue invalid_type [k] None], None)
  | Some (JStr s) => (flat_map (checkString [k] s) (checks f), Some s)
  | Some _ => ([mkIssue invalid_type [k] None], None)
  end.

Definition parseNumber (f : Field NumberCheck) (k : string) (v : option Json)
  : list ZodIssue * option Q :=
  match v with
  | None => if optional f then ([], None) else ([mkIssue invalid_type [k] None], None)
  | Some (JNum q) => (flat_map (checkNumber [k] q) (checks f), Some q)
  | Some _ => ([mkIssue invalid_type [k] None], None)
  end.

(** The issue of an object schema on a body that is not an object. *)
Definition notAnObject : ZodIssue := mkIssue invalid_type [] None.

End Zod.

Import Zod.

(* ------------------------------------------------------------------ *)
(** * Exceptions, and computations over a store *)

(** What a handler's [catch] tells apart: a [z.ZodError], an error with a
    [code] property (the ORM's known request errors), any other error. *)
Inductive Exn : Type :=
| ZodError (errors : list ZodIssue)
| CodedError (code : string)
| PlainError.

Definition Result (A : Type) : Type := (Exn + A)%type.

(** A computation that reads and writes a store of type [St] and returns or
    throws. *)
Definition M (St A : Type) : Type := St -> Result A * St.

Definition ret {St A} (a : A) : M St A := fun s => (inr a, s).
Definition throw {St A} (e : Exn) : M St A := fun s => (inl e, s).
Definition bind {St A B} (m : M St A) (k : A -> M St B) : M St B :=
  fun s => match m s with
           | (inr a, s') => k a s'
           | (inl e, s') => (inl e, s')
           end.
(** A synchronous call that returns or throws, inside a handler. *)
Definition lift {St A} (r : Result A) : M St A := fun s => (r, s).
(** [try { body } catch (error) { handler }]. *)
Definition try_catch {St A} (body : M St A) (handler : Exn -> A) : St -> A * St :=
  fun s => match body s with
           | (inr a, s') => (a, s')
           | (inl e, s') => (handler e, s')
           end.

Declare Scope js_scope.
Delimit Scope js_scope with js.
Notation "x <- m ;; k" := (bind m (fun x => k))
  (at level 61, m at next level, right associativity) : js_scope.
Open Scope js_scope.

(* ------------------------------------------------------------------ *)
(** * Data model *)

Module User.
(** Modelled from the spec: the ORM's schema file (the [User] model) is not
    among the sources; the fields are those of the spec's data model: a
    store-assigned integer [id], an [email] whose uniqueness the store
    enforces, an optional [name]. *)
Record t : Type := make {
  id : Z;
  email : string;
  name : option string
}.
End User.

Module Product.
(** Modelled from the spec: the ORM's schema file (the [Product] model) is not
    among the sources; the fields are those of the spec's data model.  No
    column width or integer range is modelled. *)
Record t : Type := make {
  id : Z;
  name : string;
  category : string;
  price : Q;
  stock : Z;
  description : option string;
  createdAt : Z
}.
End Product.

(* ------------------------------------------------------------------ *)
(** * Responses *)

(** What a handler serialises: records, lists of records, the statistics. *)
Inductive Data : Type :=
| DUsers (users : list User.t)
| DUser (user : User.t)
| DProducts (products : list Product.t)
| DProduct (product : Product.t)
| DStats (totalProducts lowStock : Z) (totalValue : Js.Double).

(** The value of a member of an object literal passed to [res.json]. *)
Inductive Value : Type :=
| VString (s : string)
| VErrors (errors : list ZodIssue)
| VData (d : Data).

(** The body of a response: none ([res.send()]), a record or a list sent as
    it is ([res.json(users)]), or an object literal. *)
Inductive Body : Type :=
| NoBody
| Bare (d : Data)
| Object (members : list (string * Value)).

Record Response : Type := mkResponse {
  status : Z;
  body : Body
}.

(** [res.json(b)], [res.status(n).json(b)], [res.status(n).send()]. *)
Definition res_json (b : Body) : Response := mkResponse 200 b.
Definition res_status_json (n : Z) (b : Body) : Response := mkResponse n b.
Definition res_status_send (n : Z) : Response := mkResponse n NoBody.

(* ------------------------------------------------------------------ *)
(** * The users router *)

Module Users.

(** [req.body] after [userSchema.parse]: the keys that were supplied. *)
Record UserData : Type := mkData {
  d_email : option string;
  d_name : option string
}.

Record UserSchema : Type := mkSchema {
  s_email : Field StringCheck;
  s_name : Field StringCheck
}.

(** [prisma.user]: the operations the router calls.  [update] and [delete]
    take the [id] of their [where] argument. *)
Record Prisma (St : Type) : Type := mkPrisma {
  findMany : M St (list User.t);
  create : UserData -> M St User.t;
  update : Js.JsInt -> UserData -> M St User.t;
  delete : Js.JsInt -> M St User.t
}.
Arguments findMany {St} _.
Arguments create {St} _ _.
Arguments update {St} _ _ _.
Arguments delete {St} _ _.

Inductive Request : Type :=
| GET_users
| POST_users (body : Json)
| PUT_users_id (id : string) (body : Json)
| DELETE_users_id (id : string).

(** [schema.parse(body)] for an object schema with the keys [email] and
    [name]: every key is parsed, the issues are gathered, unknown keys are
    dropped. *)
Definition parse (sch : UserSchema) (body : Json) : Result UserData :=
  match body with
  | JObj kvs =>
      let '(i1, e) := parseString (s_email sch) "email" (lookup "email" kvs) in
      let '(i2, n) := parseString (s_name sch) "name" (lookup "name" kvs) in
      match i1 ++ i2 with
      | [] => inr (mkData e n)
      | issues => inl (ZodError issues)
      end
  | _ => inl (ZodError [notAnObject])
  end.

(** [idSchema.parse(req.params)]: the string is transformed by
    [parseInt(val, 10)] and refined by [!isNaN(val)]. *)
Definition idSchema_parse (id : string) : Result Js.JsInt :=
  let val := Js.parseInt id (Some 10) in
  if negb (Js.isNaN val) then inr val
  else inl (ZodError [mkIssue custom ["id"] (Some "Invalid ID")]).

Definition internal_error : Response :=
  res_status_json 500 (Object [("error", VString "Internal Server Error")]).

(** The [catch] block shared by POST, PUT and DELETE. *)
Definition on_error (error : Exn) : Response :=
  match error with
  | ZodError errors => res_status_json 400 (Object [("errors", VErrors errors)])
  | _ => internal_error
  end.

Section Router.
(** The email pattern of the schema library, taken as a parameter. *)
Variable emailRegex : string -> bool.
Context {St : Type} (prisma : Prisma St).

Definition userSchema : UserSchema :=
  mkSchema (z_string [Email emailRegex])
           (z_optional (z_string [Min 2 None])).

(** GET /users *)
Definition get_users : St -> Response * St :=
  try_catch
    (users <- findMany prisma ;;
     ret (res_json (Bare (DUsers users))))
    (fun _ => internal_error).

(** POST /users *)
Definition post_users (body : Json) : St -> Response * St :=
  try_catch
    (validatedData <- lift (parse userSchema body) ;;
     user <- create prisma validatedData ;;
     ret (res_status_json 201 (Bare (DUser user))))
    on_error.

(** PUT /users/:id *)
Definition put_users (id : string) (body : Json) : St -> Response * St :=
  try_catch
    (id <- lift (idSchema_parse id) ;;
     validatedData <- lift (parse userSchema body) ;;
     user <- update prisma id validatedData ;;
     ret (res_json (Bare (DUser user))))
    on_error.

(** DELETE /users/:id *)
Definition delete_users (id : string) : St -> Response * St :=
  try_catch
    (id <- lift (idSchema_parse id) ;;
     _ <- delete prisma id ;;
     ret (res_status_send 204))
    on_error.

Definition router (req : Request) : St -> Response * St :=
  match req with
  | GET_users => get_users
  | POST_users body => post_users body
  | PUT_users_id id body => put_users id body
  | DELETE_users_id id => delete_users id
  end.
End Router.

(** ** A reference store

    The table behind [prisma.user], in memory: rows, and the next
    auto-increment [id].  A missing row is the ORM's error [P2025], a
    duplicate [email] its error [P2002]; a [where] or [data] argument the
    ORM's validation refuses is an error without [code]. *)
Record Db : Type := mkDb {
  rows : list User.t;
  next_id : Z
}.

Definition has_id (n : Z) (u : User.t) : bool := User.id u =? n.

Definition patch (d : UserData) (u : User.t) : User.t :=
  User.make (User.id u)
            (match d_email d with Some e => e | None => User.email u end)
            (match d_name d with Some n => Some n | None => User.name u end).

Definition email_taken (e : option string) (except : option Z) (rs : list User.t) : bool :=
  match e with
  | None => false
  | Some e =>
      existsb (fun u => String.eqb (User.email u) e
                        && match except with
                           | Some n => negb (has_id n u)
                           | None => true
                           end) rs
  end.

Definition mem_findMany : M Db (list User.t) := fun db => (inr (rows db), db).

Definition mem_create (d : UserData) : M Db User.t := fun db =>
  match d_email d with
  | None => (inl PlainError, db)
  | Some e =>
      if email_taken (Some e) None (rows db) then (inl (CodedError "P2002"), db)
      else
        let u := User.make (next_id db) e (d_name d) in
        (inr u, mkDb (rows db ++ [u]) (next_id db + 1))
  end.

Definition mem_update (id : Js.JsInt) (d : UserData) : M Db User.t := fun db =>
  match id with
  | Js.NaN | Js.Infinity _ => (inl PlainError, db)
  | Js.Num n =>
      match find (has_id n) (rows db) with
      | None => (inl (CodedError "P2025"), db)
      | Some u =>
          if email_taken (d_email d) (Some n) (rows db)
          then (inl (CodedError "P2002"), db)
          else (inr (patch d u),
                mkDb (map (fun r => if has_id n r then patch d r else r) (rows db))
                     (next_id db))
      end
  end.

Definition mem_delete (id : Js.JsInt) : M Db User.t := fun db =>
  match id with
  | Js.NaN | Js.Infinity _ => (inl PlainError, db)
  | Js.Num n =>
      match find (has_id n) (rows db) with
      | None => (inl (CodedError "P2025"), db)
      | Some u =>
          (inr u, mkDb (filter (fun r => negb (has_id n r)) (rows db)) (next_id db))
      end
  end.

Definition mem : Prisma Db := mkPrisma Db mem_findMany mem_create mem_update mem_delete.

End Users.

(* ------------------------------------------------------------------ *)
(** * The products router *)

Module Products.

(** [req.body] after [productSchema.parse]: the keys that were supplied. *)
Record ProductData : Type := mkData {
  d_name : option string;
  d_category : option string;
  d_price : option Q;
  d_stock : option Q;
  d_description : option string
}.

Record ProductSchema : Type := mkSchema {
  s_name : Field StringCheck;
  s_category : Field StringCheck;
  s_price : Field NumberCheck;
  s_stock : Field NumberCheck;
  s_description : Field StringCheck
}.

Definition productSchema : ProductSchema :=
  mkSchema
    (z_string [Min 3 (Some "Nama produk minimal 3 karakter"); Max 100 None])
    (z_string [Min 2 (Some "Kategori wajib diisi")])
    (z_number [Positive (Some "Harga harus angka positif")])
    (z_number [Int; Nonnegative (Some "Stok tidak boleh negatif")])
    (z_optional (z_string [])).

(** [schema.partial()]: every key becomes optional. *)
Definition partial (sch : ProductSchema) : ProductSchema :=
  mkSchema (z_optional (s_name sch)) (z_optional (s_category sch))
           (z_optional (s_price sch)) (z_optional (s_stock sch))
           (z_optional (s_description sch)).

(** [schema.parse(body)]: every key of the schema is parsed, the issues are
    gathered, unknown keys are dropped. *)
Definition parse (sch : ProductSchema) (body : Json) : Result ProductData :=
  match body with
  | JObj kvs =>
      let '(i1, n) := parseString (s_name sch) "name" (lookup "name" kvs) in
      let '(i2, c) := parseString (s_category sch) "category" (lookup "category" kvs) in
      let '(i3, p) := parseNumber (s_price sch) "price" (lookup "price" kvs) in
      let '(i4, s) := parseNumber (s_stock sch) "stock" (lookup "stock" kvs) in
      let '(i5, d) := parseString (s_description sch) "description" (lookup "description" kvs) in
      match i1 ++ i2 ++ i3 ++ i4 ++ i5 with
      | [] => inr (mkData n c p s d)
      | issues => inl (ZodError issues)
      end
  | _ => inl (ZodError [notAnObject])
  end.

(** The [where] argument of [count]. *)
Inductive Where : Type :=
| All
| StockLt (n : Z).                      (* { stock: { lt: n } } *)

(** A row of [findMany({ select: { price: true, stock: true } })]. *)
Record PriceStock : Type := mkPriceStock {
  price : Q;
  stock : Z
}.

(** [prisma.product]: the operations the router calls.  [update] and
    [delete] take the [id] of their [where] argument. *)
Record Prisma (St : Type) : Type := mkPrisma {
  findMany_createdAt_desc : M St (list Product.t);
  findMany_price_stock : M St (list PriceStock);
  count : Where -> M St Z;
  create : ProductData -> M St Product.t;
  update : Js.JsInt -> ProductData -> M St Product.t;
  delete : Js.JsInt -> M St Product.t
}.
Arguments findMany_createdAt_desc {St} _.
Arguments findMany_price_stock {St} _.
Arguments count {St} _ _.
Arguments create {St} _ _.
Arguments update {St} _ _ _.
Arguments delete {St} _ _.

Inductive Request : Type :=
| GET_products
| GET_stats
| POST_products (body : Json)
| PUT_products_id (id : string) (body : Json)
| DELETE_products_id (id : string).

Definition success (d : Data) : Body :=
  Object [("status", VString "success"); ("data", VData d)].
Definition fail_errors (errors : list ZodIssue) : Body :=
  Object [("status", VString "fail"); ("errors", VErrors errors)].
Definition fail_message (m : string) : Body :=
  Object [("status", VString "fail"); ("message", VString m)].
Definition error_message (m : string) : Body :=
  Object [("status", VString "error"); ("message", VString m)].

Definition not_found : Response :=
  res_status_json 404 (fail_message "Produk tidak ditemukan").

(** [error.code === 'P2025'] *)
Definition is_P2025 (error : Exn) : bool :=
  match error with
  | CodedError c => String.eqb c "P2025"
  | _ => false
  end.

(** [validatedData.name = validatedData.name.trim()]; on a missing [name]
    the call throws. *)
Definition trim_name (d : ProductData) : Result ProductData :=
  match d_name d with
  | Some n => inr (mkData (Some (Js.trim n)) (d_category d) (d_price d)
                          (d_stock d) (d_description d))
  | None => inl PlainError
  end.

(** [all.reduce((acc, curr) => acc + (Number(curr.price) * curr.stock), 0)]:
    the price and the stock of a row as numbers, multiplied and added as
    doubles, from the left. *)
Definition totalValue (all : list PriceStock) : Js.Double :=
  fold_left
    (fun acc curr =>
       Js.fadd acc (Js.fmul (Js.roundQ (price curr)) (Js.roundQ (inject_Z (stock curr)))))
    all (Js.DFin 0).

Section Router.
Context {St : Type} (prisma : Prisma St).

(** GET /products *)
Definition get_products : St -> Response * St :=
  try_catch
    (products <- findMany_createdAt_desc prisma ;;
     ret (res_json (success (DProducts products))))
    (fun _ => res_status_json 500 (error_message "Internal Server Error")).

(** GET /stats *)
Definition get_stats : St -> Response * St :=
  try_catch
    (totalProducts <- count prisma All ;;
     lowStock <- count prisma (StockLt 10) ;;
     all <- findMany_price_stock prisma ;;
     ret (res_json (success (DStats totalProducts lowStock (totalValue all)))))
    (fun _ => res_status_json 500 (error_message "Gagal memuat statistik")).

(** POST /products *)
Definition post_products (body : Json) : St -> Response * St :=
  try_catch
    (validatedData <- lift (parse productSchema body) ;;
     validatedData <- lift (trim_name validatedData) ;;
     newProduct <- create prisma validatedData ;;
     ret (res_status_json 201 (success (DProduct newProduct))))
    (fun error =>
       match error with
       | ZodError errors => res_status_json 400 (fail_errors errors)
       | _ => res_status_json 500 (error_message "Gagal membuat produk")
       end).

(** PUT /products/:id *)
Definition put_products (id : string) (body : Json) : St -> Response * St :=
  try_catch
    (validatedData <- lift (parse (partial productSchema) body) ;;
     updatedProduct <- update prisma (Js.parseInt id None) validatedData ;;
     ret (res_json (success (DProduct updatedProduct))))
    (fun error =>
       if is_P2025 error then not_found
       else match error with
            | ZodError errors => res_status_json 400 (fail_errors errors)
            | _ => res_status_json 500 (error_message "Gagal update produk")
            end).

(** DELETE /products/:id *)
Definition delete_products (id : string) : St -> Response * St :=
  try_catch
    (_ <- delete prisma (Js.parseInt id None) ;;
     ret (res_json (Object [("status", VString "success");
                            ("message", VString "Produk berhasil dihapus")])))
    (fun error =>
       if is_P2025 error then not_found
       else res_status_json 500 (error_message "Gagal menghapus produk")).

Definition router (req : Request) : St -> Response * St :=
  match req with
  | GET_products => get_products
  | GET_stats => get_stats
  | POST_products body => post_products body
  | PUT_products_id id body => put_products id body
  | DELETE_products_id id => delete_products id
  end.
End Router.

(** ** A reference store

    The table behind [prisma.product], in memory: rows, the next
    auto-increment [id], and the clock that stamps [createdAt].  A missing
    row is the ORM's error [P2025]; a [where] or [data] argument the ORM's
    validation refuses (an id that is [NaN] or infinite, a missing column, a stock that is not an
    integer) is an error without [code].  The store checks no sign. *)
Record Db : Type := mkDb {
  rows : list Product.t;
  next_id : Z;
  clock : Z
}.

Definition has_id (n : Z) (p : Product.t) : bool := Product.id p =? n.

Definition or_else {A} (o : option A) (a : A) : A :=
  match o with Some x => x | None => a end.

(** The value [data] gives to the integer column [stock]: [Some None] when
    the key is absent, [None] when the number supplied is not an integer. *)
Definition stock_column (d : ProductData) : option (option Z) :=
  match d_stock d with
  | Some q => option_map Some (Js.toInteger q)
  | None => Some None
  end.

(** The row that [data] makes of [p]: a supplied column is replaced, the
    others are kept. *)
Definition patch (d : ProductData) (stock' : option Z) (p : Product.t) : Product.t :=
  Product.make (Product.id p)
    (or_else (d_name d) (Product.name p))
    (or_else (d_category d) (Product.category p))
    (or_else (d_price d) (Product.price p))
    (or_else stock' (Product.stock p))
    (match d_description d with
     | Some x => Some x
     | None => Product.description p
     end)
    (Product.createdAt p).

(** The row that [create] inserts. *)
Definition new_row (d : ProductData) (id now : Z) : option Product.t :=
  match d_name d, d_category d, d_price d, d_stock d with
  | Some n, Some c, Some p, Some q =>
      match Js.toInteger q with
      | Some s => Some (Product.make id n c p s (d_description d) now)
      | None => None
      end
  | _, _, _, _ => None
  end.

Fixpoint insert_desc (p : Product.t) (l : list Product.t) : list Product.t :=
  match l with
  | [] => [p]
  | x :: l' =>
      if Product.createdAt x <=? Product.createdAt p then p :: l
      else x :: insert_desc p l'
  end.

(** [orderBy: { createdAt: 'desc' }] *)
Definition sort_desc (l : list Product.t) : list Product.t :=
  fold_right insert_desc [] l.

Definition matches (w : Where) (p : Product.t) : bool :=
  match w with
  | All => true
  | StockLt n => Product.stock p <? n
  end.

Definition mem_findMany_createdAt_desc : M Db (list Product.t) :=
  fun db => (inr (sort_desc (rows db)), db).

Definition mem_findMany_price_stock : M Db (list PriceStock) :=
  fun db => (inr (map (fun p => mkPriceStock (Product.price p) (Product.stock p)) (rows db)), db).

Definition mem_count (w : Where) : M Db Z :=
  fun db => (inr (Z.of_nat (length (filter (matches w) (rows db)))), db).

Definition mem_create (d : ProductData) : M Db Product.t := fun db =>
  match new_row d (next_id db) (clock db) with
  | Some p => (inr p, mkDb (rows db ++ [p]) (next_id db + 1) (clock db + 1))
  | None => (inl PlainError, db)
  end.

Definition mem_update (id : Js.JsInt) (d : ProductData) : M Db Product.t := fun db =>
  match id, stock_column d with
  | Js.Num n, Some stock' =>
      match find (has_id n) (rows db) with
      | None => (inl (CodedError "P2025"), db)
      | Some p =>
          (inr (patch d stock' p),
           mkDb (map (fun r => if has_id n r then patch d stock' r else r) (rows db))
                (next_id db) (clock db))
      end
  | _, _ => (inl PlainError, db)
  end.

Definition mem_delete (id : Js.JsInt) : M Db Product.t := fun db =>
  match id with
  | Js.NaN | Js.Infinity _ => (inl PlainError, db)
  | Js.Num n =>
      match find (has_id n) (rows db) with
      | None => (inl (CodedError "P2025"), db)
      | Some p =>
          (inr p, mkDb (filter (fun r => negb (has_id n r)) (rows db))
                       (next_id db) (clock db))
      end
  end.

Definition mem : Prisma Db :=
  mkPrisma Db mem_findMany_createdAt_desc mem_findMany_price_stock mem_count
           mem_create mem_update mem_delete.

Definition empty : Db := mkDb [] 1 0.

End Products.

(* ------------------------------------------------------------------ *)
(** * Properties: what they are stated with *)

(** ** The response envelope *)

(** A member of the envelope [{status, data?, message?, errors?}]. *)
Definition envelope_member (kv : string * Value) : bool :=
  match kv with
  | (k, VString s) =>
      (String.eqb k "status"
       && (String.eqb s "success" || String.eqb s "fail" || String.eqb s "error"))
      || String.eqb k "message"
  | (k, VData _) => String.eqb k "data"
  | (k, VErrors _) => String.eqb k "errors"
  end.

(** A body in the uniform shape: an object with a [status] member and no
    member outside the envelope. *)
Definition is_envelope (b : Body) : bool :=
  match b with
  | Object members =>
      forallb envelope_member members
      && match lookup "status" members with Some _ => true | None => false end
  | _ => false
  end.

(** The shapes a response of the products router takes, each body spelled
    out. *)
Inductive ProductReply : Response -> Prop :=
| reply_data (n : Z) (d : Data) :
    n = 200 \/ n = 201 ->
    ProductReply (mkResponse n
      (Object [("status", VString "success"); ("data", VData d)]))
| reply_deleted (m : string) :
    ProductReply (mkResponse 200
      (Object [("status", VString "success"); ("message", VString m)]))
| reply_invalid (errors : list ZodIssue) :
    ProductReply (mkResponse 400
      (Object [("status", VString "fail"); ("errors", VErrors errors)]))
| reply_missing (m : string) :
    ProductReply (mkResponse 404
      (Object [("status", VString "fail"); ("message", VString m)]))
| reply_failed (m : string) :
    ProductReply (mkResponse 500
      (Object [("status", VString "error"); ("message", VString m)])).

(** ** Path parameters *)

(** A string that starts with a decimal digit. *)
Definition startsWithDigit (s : string) : bool :=
  match s with
  | String c _ =>
      match Js.digitValue c with
      | Some d => d <? 10
      | None => false
      end
  | EmptyString => false
  end.

(** The response to a path parameter that [idSchema] refuses. *)
Definition invalid_id : Response :=
  mkResponse 400
    (Object [("errors", VErrors [mkIssue custom ["id"] (Some "Invalid ID")])]).

(** The response of a successful DELETE /products/:id. *)
Definition deleted : Response :=
  mkResponse 200 (Object [("status", VString "success");
                          ("message", VString "Produk berhasil dihapus")]).

(** ** Constraints on the supplied fields *)

(** A value that satisfies the constraint of its field. *)
Definition name_ok (v : Json) : bool :=
  match v with
  | JStr s => (3 <=? String.length s)%nat && (String.length s <=? 100)%nat
  | _ => false
  end.
Definition category_ok (v : Json) : bool :=
  match v with
  | JStr s => (2 <=? String.length s)%nat
  | _ => false
  end.
Definition price_ok (v : Json) : bool :=
  match v with
  | JNum q => negb (Qle_bool q 0)
  | _ => false
  end.
Definition stock_ok (v : Json) : bool :=
  match v with
  | JNum q => Js.isInteger q && Qle_bool 0 q
  | _ => false
  end.
Definition description_ok (v : Json) : bool :=
  match v with
  | JStr _ => true
  | _ => false
  end.

(** An absent key is accepted; a supplied value has to satisfy [ok]. *)
Definition if_supplied (ok : Json -> bool) (v : option Json) : bool :=
  match v with
  | Some j => ok j
  | None => true
  end.

(** Every product field that the object supplies satisfies its constraint. *)
Definition supplied_ok (kvs : list (string * Json)) : bool :=
  if_supplied name_ok (lookup "name" kvs)
  && if_supplied category_ok (lookup "category" kvs)
  && if_supplied price_ok (lookup "price" kvs)
  && if_supplied stock_ok (lookup "stock" kvs)
  && if_supplied description_ok (lookup "description" kvs).

(** The string, or the number, that a key supplies. *)
Definition supplied_string (v : option Json) : option string :=
  match v with
  | Some (JStr s) => Some s
  | _ => None
  end.
Definition supplied_number (v : option Json) : option Q :=
  match v with
  | Some (JNum q) => Some q
  | _ => None
  end.

(** The fields that the object supplies. *)
Definition supplied_data (kvs : list (string * Json)) : Products.ProductData :=
  Products.mkData
    (supplied_string (lookup "name" kvs))
    (supplied_string (lookup "category" kvs))
    (supplied_number (lookup "price" kvs))
    (supplied_number (lookup "stock" kvs))
    (supplied_string (lookup "description" kvs)).

(** The record after a partial update, in the words of the spec: a supplied
    field takes the supplied value, every other field keeps its value. *)
Definition updated (kvs : list (string * Json)) (p : Product.t) : Product.t :=
  Product.make
    (Product.id p)
    (match lookup "name" kvs with Some (JStr s) => s | _ => Product.name p end)
    (match lookup "category" kvs with Some (JStr s) => s | _ => Product.category p end)
    (match lookup "price" kvs with Some (JNum q) => q | _ => Product.price p end)
    (match lookup "stock" kvs with
     | Some (JNum q) => Qnum (Qred q)
     | _ => Product.stock p
     end)
    (match lookup "description" kvs with
     | Some (JStr s) => Some s
     | _ => Product.description p
     end)
    (Product.createdAt p).

(** A payload with a price that is not positive, or a stock that is negative
    or not an integer. *)
Definition bad_price_or_stock (kvs : list (string * Json)) : bool :=
  match lookup "price" kvs with
  | Some (JNum q) => Qle_bool q 0
  | _ => false
  end
  || match lookup "stock" kvs with
     | Some (JNum q) => negb (Qle_bool 0 q) || negb (Js.isInteger q)
     | _ => false
     end.

(** The constraint on the [name] of a user. *)
Definition user_name_ok (v : Json) : bool :=
  match v with
  | JStr s => (2 <=? String.length s)%nat
  | _ => false
  end.

(** Validated data: a supplied price is positive, a supplied stock is not
    negative. *)
Definition good_data (d : Products.ProductData) : Prop :=
  (forall q, Products.d_price d = Some q -> (0 < q)%Q)
  /\ (forall q, Products.d_stock d = Some q -> Qle_bool 0 q = true).

(** The invariant of a persisted product. *)
Definition good_product (p : Product.t) : Prop :=
  (0 < Product.price p)%Q /\ 0 <= Product.stock p.

(** The store after a sequence of requests to the products router. *)
Definition run (reqs : list Products.Request) (db : Products.Db) : Products.Db :=
  fold_left (fun db req => snd (Products.router Products.mem req db)) reqs db.

(** ** The statistics, in the words of the spec *)









(** ** Stores used in the examples *)

Definition one_user : Users.Db :=
  Users.mkDb [User.make 12 "ann@example.com" (Some "Ann")] 13.

Definition widget : Product.t :=
  Product.make 1 "Widget" "Tools" 10%Q 1 None 0.

Definition one_product : Products.Db := Products.mkDb [widget] 2 1.

(** The payload of the spec's scenario, and the same with white space
    around a one-letter name. *)
Definition widget_payload : Json :=
  JObj [("name", JStr "Widget"); ("category", JStr "Tools");
        ("price", JNum 10); ("stock", JNum 1)].

Definition padded_payload : Json :=
  JObj [("name", JStr "  a  "); ("category", JStr "Tools");
        ("price", JNum 10); ("stock", JNum 1)].

(** An email pattern for the examples: the address contains the character
    at-sign. *)
Fixpoint has_at (s : string) : bool :=
  match s with
  | EmptyString => false
  | String c s' => Ascii.eqb c "@"%char || has_at s'
  end.

(** ** Decimal notation *)

(** The number that a sequence of decimal digits denotes after [a]. *)
Fixpoint uint_value (a : Z) (d : Decimal.uint) : Z :=
  match d with
  | Decimal.Nil => a
  | Decimal.D0 d => uint_value (10 * a + 0) d
  | Decimal.D1 d => uint_value (10 * a + 1) d
  | Decimal.D2 d => uint_value (10 * a + 2) d
  | Decimal.D3 d => uint_value (10 * a + 3) d
  | Decimal.D4 d => uint_value (10 * a + 4) d
  | Decimal.D5 d => uint_value (10 * a + 5) d
  | Decimal.D6 d => uint_value (10 * a + 6) d
  | Decimal.D7 d => uint_value (10 * a + 7) d
  | Decimal.D8 d => uint_value (10 * a + 8) d
  | Decimal.D9 d => uint_value (10 * a + 9) d
  end.

(** A character that is not a decimal digit. *)
Definition notDecimalDigit (c : ascii) : bool :=
  match Js.digitValue c with
  | Some d => negb (d <? 10)
  | None => true
  end.

(** ** The answers of each route *)

(** The statuses a route of the users router answers with. *)
Definition user_statuses (req : Users.Request) : list Z :=
  match req with
  | Users.GET_users => [200; 500]
  | Users.POST_users _ => [201; 400; 500]
  | Users.PUT_users_id _ _ => [200; 400; 500]
  | Users.DELETE_users_id _ => [204; 400; 500]
  end.

(** The statuses a route of the products router answers with. *)
Definition product_statuses (req : Products.Request) : list Z :=
  match req with
  | Products.GET_products => [200; 500]
  | Products.GET_stats => [200; 500]
  | Products.POST_products _ => [201; 400; 500]
  | Products.PUT_products_id _ _ => [200; 400; 404; 500]
  | Products.DELETE_products_id _ => [200; 404; 500]
  end.

(** The message of the 500 answer of a route of the products router. *)
Definition failure_message (req : Products.Request) : string :=
  match req with
  | Products.GET_products => "Internal Server Error"
  | Products.GET_stats => "Gagal memuat statistik"
  | Products.POST_products _ => "Gagal membuat produk"
  | Products.PUT_products_id _ _ => "Gagal update produk"
  | Products.DELETE_products_id _ => "Gagal menghapus produk"
  end.

(** ** Keys of the schemas *)

Definition product_keys : list string :=
  ["name"; "category"; "price"; "stock"; "description"].

Definition user_keys : list string := ["email"; "name"].

(** Two objects with the same values under the keys [keys]. *)
Definition agree (keys : list string) (kvs kvs' : list (string * Json)) : Prop :=
  forall k, In k keys -> lookup k kvs = lookup k kvs'.

(** ** Creation *)

(** The four keys a product is created with. *)
Definition required_keys : list string := ["name"; "category"; "price"; "stock"].

(** The row that POST /products inserts for the supplied values. *)
Definition created_row (db : Products.Db) (n c : string) (p q : Q)
    (description : option string) : Product.t :=
  Product.make (Products.next_id db) (Js.trim n) c p (Qnum (Qred q)) description
               (Products.clock db).

(** The store after the insertion of [p]. *)
Definition inserted (db : Products.Db) (p : Product.t) : Products.Db :=
  Products.mkDb (Products.rows db ++ [p]) (Products.next_id db + 1) (Products.clock db + 1).

(** White space at the start, or at the end, of a string. *)
Definition startsWithSpace (s : string) : bool :=
  match s with
  | String c _ => Js.isWhiteSpace c
  | EmptyString => false
  end.
Definition endsWithSpace (s : string) : bool :=
  startsWithSpace (Js.rev_string s EmptyString).

(** ** Users *)

(** The body of a user passes [userSchema]: an [email] that matches the
    pattern, and a [name] of two characters or more when supplied. *)
Definition user_supplied_ok (emailRegex : string -> bool)
    (kvs : list (string * Json)) : bool :=
  match lookup "email" kvs with
  | Some (JStr e) => emailRegex e
  | _ => false
  end
  && if_supplied user_name_ok (lookup "name" kvs).

(** The fields of a user that the object supplies. *)
Definition user_supplied_data (kvs : list (string * Json)) : Users.UserData :=
  Users.mkData (supplied_string (lookup "email" kvs))
               (supplied_string (lookup "name" kvs)).

(** No row of the table has the id that the store assigns next. *)
Definition fresh_next_id (db : Users.Db) : Prop :=
  forall u, In u (Users.rows db) -> User.id u <> Users.next_id db.

(** No row of the products table has the id that the store assigns next. *)
Definition fresh_next_product_id (db : Products.Db) : Prop :=
  forall p, In p (Products.rows db) -> Product.id p <> Products.next_id db.

(** A path parameter of 310 digits: 1 followed by 309 zeros. *)
Definition long_id : string :=
  String "1" (string_of_list_ascii (repeat "0"%char 309)).

(* ------------------------------------------------------------------ *)
(** * Properties: proofs *)

Lemma ProductReply_envelope (r : Response) :
  ProductReply r -> is_envelope (body r) = true.
Proof. destruct 1; reflexivity. Qed.

(** Running a handler body under its [catch]. *)
Ltac run_handler :=
  unfold try_catch, bind, lift, ret, res_json, res_status_json, res_status_send.

Lemma parseDigits_some (R : Z) (s : string) (a : Z) :
  exists n, Js.parseDigits R s (Some a) = Some n.
Proof.
  revert a; induction s as [|c s IH]; intros a; simpl.
  - now exists a.
  - destruct (Js.digitValue c) as [d|]; [|now exists a].
    destruct (d <? R); [apply IH | now exists a].
Qed.

#[local] Arguments Js.toNumber : simpl never.
#[local] Arguments Js.roundQ : simpl never.

(** The number that stands for an integer is not [NaN]. *)
Lemma toNumber_not_NaN (z : Z) : Js.isNaN (Js.toNumber z) = false.
Proof.
  unfold Js.toNumber.
  repeat match goal with
         | |- context [if ?b then _ else _] => destruct b
         end; reflexivity.
Qed.

(** The number that stands for a safe integer is the integer. *)
Lemma toNumber_safe (z : Z) : Js.isSafeInteger z = true -> Js.toNumber z = Js.Num z.
Proof. unfold Js.isSafeInteger, Js.toNumber. now intros ->. Qed.

(** [parseInt(s, 10)] is [NaN] exactly when, after the leading white space
    and one sign, [s] does not start with a decimal digit. *)
Lemma parseInt10_NaN (s : string) :
  Js.parseInt s (Some 10) = Js.NaN <->
  startsWithDigit (snd (Js.stripSign (Js.trimStart s))) = false.
Proof.
  unfold Js.parseInt.
  destruct (Js.stripSign (Js.trimStart s)) as [sign s1]; simpl.
  destruct s1 as [|c s1]; simpl; [tauto|].
  destruct (Js.digitValue c) as [d|]; [|tauto].
  destruct (d <? 10).
  - match goal with
    | |- context [Js.parseDigits ?R ?t (Some ?a)] =>
        destruct (parseDigits_some R t a) as [n ->]
    end.
    pose proof (toNumber_not_NaN (sign * n)) as H.
    split; [intros E; rewrite E in H; discriminate | discriminate].
  - tauto.
Qed.

(** ** C3: path parameters that are not numbers *)

(** C3 (as amended): a PUT or DELETE on /api/users/:id whose [:id] does not
    start, after leading white space and one sign, with a decimal digit (so
    that [parseInt(id, 10)] is [NaN]) is answered 400 with the validation
    error [Invalid ID], whatever the body, and the store is left as it was:
    this holds for every implementation of the store, hence no operation of
    the store was called. *)
Theorem users_invalid_id_400 {St : Type} (emailRegex : string -> bool)
    (prisma : Users.Prisma St) (id : string) (body : Json) (s : St) :
  startsWithDigit (snd (Js.stripSign (Js.trimStart id))) = false ->
  Users.put_users emailRegex prisma id body s = (invalid_id, s) /\
  Users.delete_users prisma id s = (invalid_id, s).
Proof.
  intros H. apply parseInt10_NaN in H.
  unfold Users.put_users, Users.delete_users, Users.idSchema_parse.
  run_handler. rewrite H. split; reflexivity.
Qed.

Lemma users_invalid_id_400_witness :
  Users.put_users has_at Users.mem "abc" (JObj []) one_user = (invalid_id, one_user) /\
  Users.delete_users Users.mem "abc" one_user = (invalid_id, one_user).
Proof.
  apply (users_invalid_id_400 has_at Users.mem "abc" (JObj []) one_user).
  reflexivity.
Defined.

(** C3 fails as stated.  DELETE /api/products/abc is answered 500: the
    products handlers do not validate [:id], and the store is called with
    [NaN].  DELETE /api/users/12abc is answered 204 and deletes user 12:
    [parseInt] reads the leading digits. *)
Lemma nonnumeric_id_not_400 :
  Products.delete_products Products.mem "abc" one_product
    = (mkResponse 500
        (Object [("status", VString "error"); ("message", VString "Gagal menghapus produk")]),
       one_product) /\
  Users.delete_users Users.mem "12abc" one_user
    = (mkResponse 204 NoBody, Users.mkDb [] 13).
Proof. split; reflexivity. Qed.

(** ** Parsing a product *)

Lemma Qle_bool_false (x y : Q) : Qle_bool x y = false <-> (y < x)%Q.
Proof.
  split; intros H.
  - apply Qnot_le_lt. intros L. apply Qle_bool_iff in L. congruence.
  - destruct (Qle_bool x y) eqn:E; [|reflexivity].
    apply Qle_bool_iff in E. exfalso. exact (Qlt_not_le _ _ H E).
Qed.

Lemma toInteger_correct (q : Q) :
  Js.isInteger q = true ->
  Js.toInteger q = Some (Qnum (Qred q)) /\ (inject_Z (Qnum (Qred q)) == q)%Q.
Proof.
  unfold Js.toInteger, Js.isInteger. intros H. rewrite H. split; [reflexivity|].
  apply Pos.eqb_eq in H.
  rewrite <- (Qred_correct q) at 2.
  destruct (Qred q) as [a b]; simpl in *; subst b.
  unfold Qeq, inject_Z; simpl. reflexivity.
Qed.

Lemma nonneg_numerator (q : Q) : Qle_bool 0 q = true -> 0 <= Qnum (Qred q).
Proof.
  intros H. apply Qle_bool_iff in H. rewrite <- (Qred_correct q) in H.
  unfold Qle in H; simpl in H. lia.
Qed.

#[local] Arguments Nat.leb : simpl never.
#[local] Arguments Nat.ltb : simpl never.
#[local] Arguments Qle_bool : simpl never.
#[local] Arguments Js.isInteger : simpl never.

(** Settling the comparisons of a field's checks. *)
Ltac settle_checks :=
  repeat match goal with
         | |- context [(?a <? ?b)%nat] => destruct (Nat.ltb_spec a b)
         | |- context [(?a <=? ?b)%nat] => destruct (Nat.leb_spec a b)
         | H : context [(?a <? ?b)%nat] |- _ => destruct (Nat.ltb_spec a b)
         | H : context [(?a <=? ?b)%nat] |- _ => destruct (Nat.leb_spec a b)
         | |- context [Qle_bool ?a ?b] => destruct (Qle_bool a b)
         | H : context [Qle_bool ?a ?b] |- _ => destruct (Qle_bool a b)
         | |- context [Js.isInteger ?a] => destruct (Js.isInteger a)
         | H : context [Js.isInteger ?a] |- _ => destruct (Js.isInteger a)
         end;
  simpl in *; try discriminate; try lia; auto.

(** A field parses without issue exactly when the key is absent and the
    field optional, or the value satisfies the constraint. *)
Ltac field_parsed v :=
  destruct v as [[| |?q|?s| |]|]; simpl;
  try (split; [discriminate | intros (?&?&?); discriminate]);
  [ split;
    [ intros H; settle_checks; inversion H; repeat split; auto; intros; discriminate
    | intros (H & -> & _); settle_checks ]
  | match goal with
    | |- context [if ?opt then _ else _] =>
        destruct opt; split; try discriminate;
        [ intros H; inversion H; auto
        | intros (_ & -> & _); reflexivity
        | intros (_ & _ & H); discriminate (H eq_refl) ]
    end ].

Section Fields.
Variable opt : bool.

Lemma name_parsed (v : option Json) (o : option string) :
  parseString (mkField (checks (Products.s_name Products.productSchema)) opt) "name" v
    = ([], o) <->
  if_supplied name_ok v = true /\ o = supplied_string v /\ (v = None -> opt = true).
Proof. field_parsed v. Qed.

Lemma category_parsed (v : option Json) (o : option string) :
  parseString (mkField (checks (Products.s_category Products.productSchema)) opt)
    "category" v = ([], o) <->
  if_supplied category_ok v = true /\ o = supplied_string v /\ (v = None -> opt = true).
Proof. field_parsed v. Qed.

Lemma price_parsed (v : option Json) (o : option Q) :
  parseNumber (mkField (checks (Products.s_price Products.productSchema)) opt) "price" v
    = ([], o) <->
  if_supplied price_ok v = true /\ o = supplied_number v /\ (v = None -> opt = true).
Proof. field_parsed v. Qed.

Lemma stock_parsed (v : option Json) (o : option Q) :
  parseNumber (mkField (checks (Products.s_stock Products.productSchema)) opt) "stock" v
    = ([], o) <->
  if_supplied stock_ok v = true /\ o = supplied_number v /\ (v = None -> opt = true).
Proof. field_parsed v. Qed.
End Fields.

Lemma description_parsed (v : option Json) (o : option string) :
  parseString (z_optional (z_string [])) "description" v = ([], o) <->
  if_supplied description_ok v = true /\ o = supplied_string v.
Proof.
  destruct v as [[| | |s| |]|]; simpl; try (split; [discriminate | intros (?&?); discriminate]).
  - split; [intros H; inversion H; auto | intros (_ & ->); reflexivity].
  - split; [intros H; inversion H; auto | intros (_ & ->); reflexivity].
Qed.

Lemma supplied_ok_fields (kvs : list (string * Json)) :
  supplied_ok kvs = true <->
  if_supplied name_ok (lookup "name" kvs) = true /\
  if_supplied category_ok (lookup "category" kvs) = true /\
  if_supplied price_ok (lookup "price" kvs) = true /\
  if_supplied stock_ok (lookup "stock" kvs) = true /\
  if_supplied description_ok (lookup "description" kvs) = true.
Proof. unfold supplied_ok. rewrite !andb_true_iff. tauto. Qed.

(** Splitting the issues gathered over the five fields. *)
Ltac no_issue :=
  repeat match goal with
         | H : (_ ++ _)%list = [] |- _ => apply app_eq_nil in H; destruct H
         end; subst.

(** The partial schema accepts an object exactly when every supplied field
    satisfies its constraint, and returns the supplied fields. *)
Lemma parse_partial (kvs : list (string * Json)) (d : Products.ProductData) :
  Products.parse (Products.partial Products.productSchema) (JObj kvs) = inr d <->
  supplied_ok kvs = true /\ d = supplied_data kvs.
Proof.
  rewrite supplied_ok_fields. unfold Products.parse. split.
  - destruct (parseString _ "name" _) as [i1 n] eqn:E1.
    destruct (parseString _ "category" _) as [i2 c] eqn:E2.
    destruct (parseNumber _ "price" _) as [i3 p] eqn:E3.
    destruct (parseNumber _ "stock" _) as [i4 s] eqn:E4.
    destruct (parseString _ "description" _) as [i5 x] eqn:E5.
    destruct (i1 ++ i2 ++ i3 ++ i4 ++ i5) eqn:E; [|discriminate].
    intros H; inversion H; subst d; clear H. no_issue.
    apply (name_parsed true) in E1. apply (category_parsed true) in E2.
    apply (price_parsed true) in E3. apply (stock_parsed true) in E4.
    apply description_parsed in E5.
    destruct E1 as (?&?&_), E2 as (?&?&_), E3 as (?&?&_), E4 as (?&?&_), E5 as (?&?).
    subst. unfold supplied_data. auto 8.
  - intros ((H1 & H2 & H3 & H4 & H5) & ->).
    assert (E1 : parseString (Products.s_name (Products.partial Products.productSchema))
                   "name" (lookup "name" kvs) = ([], supplied_string (lookup "name" kvs)))
      by (apply (name_parsed true); auto).
    assert (E2 : parseString (Products.s_category (Products.partial Products.productSchema))
                   "category" (lookup "category" kvs)
                 = ([], supplied_string (lookup "category" kvs)))
      by (apply (category_parsed true); auto).
    assert (E3 : parseNumber (Products.s_price (Products.partial Products.productSchema))
                   "price" (lookup "price" kvs) = ([], supplied_number (lookup "price" kvs)))
      by (apply (price_parsed true); auto).
    assert (E4 : parseNumber (Products.s_stock (Products.partial Products.productSchema))
                   "stock" (lookup "stock" kvs) = ([], supplied_number (lookup "stock" kvs)))
      by (apply (stock_parsed true); auto).
    assert (E5 : parseString (Products.s_description (Products.partial Products.productSchema))
                   "description" (lookup "description" kvs)
                 = ([], supplied_string (lookup "description" kvs)))
      by (apply description_parsed; auto).
    rewrite E1, E2, E3, E4, E5. reflexivity.
Qed.

(** What the full schema accepts is accepted by the partial schema, with the
    same result, and supplies the four required fields. *)
Lemma parse_full (kvs : list (string * Json)) (d : Products.ProductData) :
  Products.parse Products.productSchema (JObj kvs) = inr d ->
  supplied_ok kvs = true /\ d = supplied_data kvs /\
  lookup "name" kvs <> None /\ lookup "category" kvs <> None /\
  lookup "price" kvs <> None /\ lookup "stock" kvs <> None.
Proof.
  rewrite supplied_ok_fields. unfold Products.parse.
  destruct (parseString _ "name" _) as [i1 n] eqn:E1.
  destruct (parseString _ "category" _) as [i2 c] eqn:E2.
  destruct (parseNumber _ "price" _) as [i3 p] eqn:E3.
  destruct (parseNumber _ "stock" _) as [i4 s] eqn:E4.
  destruct (parseString _ "description" _) as [i5 x] eqn:E5.
  destruct (i1 ++ i2 ++ i3 ++ i4 ++ i5) eqn:E; [|discriminate].
  intros H; inversion H; subst d; clear H. no_issue.
  apply (name_parsed false) in E1. apply (category_parsed false) in E2.
  apply (price_parsed false) in E3. apply (stock_parsed false) in E4.
  apply description_parsed in E5.
  destruct E1 as (?&?&?), E2 as (?&?&?), E3 as (?&?&?), E4 as (?&?&?), E5 as (?&?).
  subst. unfold supplied_data.
  repeat split; auto; intros N; match goal with
                                | H : _ = None -> false = true |- _ =>
                                    solve [discriminate (H N)]
                                end.
Qed.

Lemma parse_not_object (sch : Products.ProductSchema) (body : Json) (d : Products.ProductData) :
  Products.parse sch body = inr d -> exists kvs, body = JObj kvs.
Proof. destruct body; try discriminate. eauto. Qed.

Lemma parse_throws_ZodError (sch : Products.ProductSchema) (body : Json) (e : Exn) :
  Products.parse sch body = inl e -> exists errors, e = ZodError errors /\ errors <> [].
Proof.
  unfold Products.parse.
  destruct body; try (intros H; inversion H; eexists; split; [reflexivity | discriminate]).
  destruct (parseString _ "name" _) as [i1 n].
  destruct (parseString _ "category" _) as [i2 c].
  destruct (parseNumber _ "price" _) as [i3 p].
  destruct (parseNumber _ "stock" _) as [i4 s].
  destruct (parseString _ "description" _) as [i5 x].
  destruct (i1 ++ i2 ++ i3 ++ i4 ++ i5); [discriminate|].
  intros H; inversion H. eexists; split; [reflexivity | discriminate].
Qed.

(** ** The reference store of products *)

Lemma map_unchanged {A} (f : A -> A) (l : list A) :
  (forall x, In x l -> f x = x) -> map f l = l.
Proof.
  induction l as [|a l IH]; simpl; intros H; [reflexivity|].
  rewrite H by auto. rewrite IH by auto. reflexivity.
Qed.

Lemma find_after_delete (n : Z) (l : list Product.t) :
  find (Products.has_id n) (filter (fun r => negb (Products.has_id n r)) l) = None.
Proof.
  induction l as [|a l IH]; simpl; [reflexivity|].
  destruct (Products.has_id n a) eqn:E; simpl; [exact IH|].
  rewrite E. exact IH.
Qed.

(** The columns that validated data writes are those of [updated]. *)
Lemma patch_supplied (kvs : list (string * Json)) :
  supplied_ok kvs = true ->
  exists stock',
    Products.stock_column (supplied_data kvs) = Some stock' /\
    forall r, Products.patch (supplied_data kvs) stock' r = updated kvs r.
Proof.
  intros H. apply supplied_ok_fields in H. destruct H as (_ & _ & _ & H & _).
  unfold Products.stock_column, Products.patch, updated, supplied_data; simpl.
  destruct (lookup "stock" kvs) as [[| |q| | |]|]; simpl in *; try discriminate.
  - apply andb_true_iff in H. destruct H as [H _].
    destruct (toInteger_correct q H) as [-> _]. simpl.
    eexists; split; [reflexivity|]. intros r.
    destruct (lookup "name" kvs) as [[]|], (lookup "category" kvs) as [[]|],
      (lookup "price" kvs) as [[]|], (lookup "description" kvs) as [[]|]; reflexivity.
  - eexists; split; [reflexivity|]. intros r.
    destruct (lookup "name" kvs) as [[]|], (lookup "category" kvs) as [[]|],
      (lookup "price" kvs) as [[]|], (lookup "description" kvs) as [[]|]; reflexivity.
Qed.

(** PUT /products/:id on validated fields, by what the store holds. *)
Lemma put_products_valid (db : Products.Db) (id : string) (n : Z)
    (kvs : list (string * Json)) :
  Js.parseInt id None = Js.Num n ->
  supplied_ok kvs = true ->
  Products.put_products Products.mem id (JObj kvs) db =
  match find (Products.has_id n) (Products.rows db) with
  | Some p =>
      (mkResponse 200
          (Object [("status", VString "success"); ("data", VData (DProduct (updated kvs p)))]),
       Products.mkDb
         (map (fun r => if Products.has_id n r then updated kvs r else r) (Products.rows db))
         (Products.next_id db) (Products.clock db))
  | None => (mkResponse 404
      (Object [("status", VString "fail"); ("message", VString "Produk tidak ditemukan")]), db)
  end.
Proof.
  intros Hid Hok.
  destruct (patch_supplied kvs Hok) as (st & Hst & Hpatch).
  unfold Products.put_products. run_handler.
  rewrite (proj2 (parse_partial kvs (supplied_data kvs))) by auto.
  rewrite Hid. simpl. unfold Products.mem_update. rewrite Hst.
  destruct (find (Products.has_id n) (Products.rows db)) as [p|]; [|reflexivity].
  rewrite Hpatch. f_equal. f_equal.
  apply map_ext. intros r. now rewrite Hpatch.
Qed.

(** PUT /products/:id on fields that fail validation. *)
Lemma put_products_invalid {St : Type} (prisma : Products.Prisma St) (id : string)
    (kvs : list (string * Json)) (s : St) :
  supplied_ok kvs = false ->
  exists errors,
    errors <> [] /\
    Products.put_products prisma id (JObj kvs) s
      = (mkResponse 400 (Object [("status", VString "fail"); ("errors", VErrors errors)]), s).
Proof.
  intros Hbad. unfold Products.put_products. run_handler.
  destruct (Products.parse _ (JObj kvs)) as [e|d] eqn:E.
  - destruct (parse_throws_ZodError _ _ _ E) as (errors & -> & Hne).
    exists errors. split; [exact Hne | reflexivity].
  - apply parse_partial in E. destruct E as [E _]. congruence.
Qed.

(** ** C10: an update with an empty object *)

(** C10: for every product that exists, PUT /api/products/:id with the body
    [{}] passes validation and is answered 200 with the record as it was;
    the store is unchanged, and no field error is raised. *)
Theorem put_empty_object_unchanged (db : Products.Db) (id : string) (n : Z) (p : Product.t) :
  Js.parseInt id None = Js.Num n ->
  find (Products.has_id n) (Products.rows db) = Some p ->
  Products.put_products Products.mem id (JObj []) db
    = (mkResponse 200 (Object [("status", VString "success"); ("data", VData (DProduct p))]), db).
Proof.
  intros Hid Hp.
  rewrite (put_products_valid db id n [] Hid eq_refl), Hp.
  assert (U : forall r, updated [] r = r) by (intros []; reflexivity).
  rewrite U. f_equal. destruct db as [rows nid clk]; simpl. f_equal.
  apply map_unchanged. intros r _. rewrite U. now destruct (Products.has_id n r).
Qed.

Lemma put_empty_object_unchanged_witness :
  Products.put_products Products.mem "1" (JObj []) one_product
    = (mkResponse 200
        (Object [("status", VString "success"); ("data", VData (DProduct widget))]), one_product).
Proof.
  apply (put_empty_object_unchanged one_product "1" 1 widget); reflexivity.
Defined.

(** ** C5: partial update *)

(** C5: for every product that exists and every PUT /api/products/:id whose
    body is an object, only the supplied fields are validated and written.
    When every supplied field satisfies its constraint the answer is 200 with
    the record in which the supplied fields have their new values and every
    other field its prior value, and the rows with another id are untouched;
    when a supplied field fails its constraint the answer is 400 and the store
    is unchanged. *)
Theorem partial_update_frame (db : Products.Db) (id : string) (n : Z) (p : Product.t)
    (kvs : list (string * Json)) :
  Js.parseInt id None = Js.Num n ->
  find (Products.has_id n) (Products.rows db) = Some p ->
  (supplied_ok kvs = true ->
   exists p',
     Products.put_products Products.mem id (JObj kvs) db
       = (mkResponse 200 (Object [("status", VString "success"); ("data", VData (DProduct p'))]),
          Products.mkDb
            (map (fun r => if Products.has_id n r then updated kvs r else r)
                 (Products.rows db))
            (Products.next_id db) (Products.clock db))
     /\ Product.id p' = Product.id p
     /\ Product.createdAt p' = Product.createdAt p
     /\ (lookup "name" kvs = None -> Product.name p' = Product.name p)
     /\ (lookup "category" kvs = None -> Product.category p' = Product.category p)
     /\ (lookup "price" kvs = None -> Product.price p' = Product.price p)
     /\ (lookup "stock" kvs = None -> Product.stock p' = Product.stock p)
     /\ (lookup "description" kvs = None -> Product.description p' = Product.description p)
     /\ (forall s, lookup "name" kvs = Some (JStr s) -> Product.name p' = s)
     /\ (forall s, lookup "category" kvs = Some (JStr s) -> Product.category p' = s)
     /\ (forall q, lookup "price" kvs = Some (JNum q) -> Product.price p' = q)
     /\ (forall q, lookup "stock" kvs = Some (JNum q) ->
                   (inject_Z (Product.stock p') == q)%Q)
     /\ (forall s, lookup "description" kvs = Some (JStr s) ->
                   Product.description p' = Some s))
  /\ (supplied_ok kvs = false ->
      exists errors,
        errors <> [] /\
        Products.put_products Products.mem id (JObj kvs) db
          = (mkResponse 400 (Object [("status", VString "fail"); ("errors", VErrors errors)]), db)).
Proof.
  intros Hid Hp. split.
  - intros Hok. exists (updated kvs p).
    rewrite (put_products_valid db id n kvs Hid Hok), Hp.
    split; [reflexivity|]. unfold updated; simpl.
    repeat split; try (intros H; rewrite H; reflexivity);
      try (intros s H; rewrite H; reflexivity).
    intros q H. rewrite H.
    apply supplied_ok_fields in Hok. destruct Hok as (_ & _ & _ & Hs & _).
    rewrite H in Hs. simpl in Hs. apply andb_true_iff in Hs.
    apply toInteger_correct. tauto.
  - apply put_products_invalid.
Qed.

Lemma partial_update_frame_witness :
  exists p',
    Products.put_products Products.mem "1" (JObj [("stock", JNum 5)]) one_product
      = (mkResponse 200 (Object [("status", VString "success"); ("data", VData (DProduct p'))]),
         Products.mkDb [Product.make 1 "Widget" "Tools" 10%Q 5 None 0] 2 1)
    /\ Product.name p' = "Widget"
    /\ Product.category p' = "Tools"
    /\ Product.price p' = 10%Q
    /\ (inject_Z (Product.stock p') == 5)%Q.
Proof.
  destruct (proj1 (partial_update_frame one_product "1" 1 widget
                     [("stock", JNum 5)] eq_refl eq_refl) eq_refl)
    as (p' & E & _ & _ & Hn & Hc & Hp & _ & _ & _ & _ & _ & Hs & _).
  exists p'. split; [exact E|].
  split; [exact (Hn eq_refl)|].
  split; [exact (Hc eq_refl)|].
  split; [exact (Hp eq_refl)|].
  exact (Hs 5%Q eq_refl).
Defined.

(** ** C1: an id that matches no record *)

Lemma delete_products_mem (db : Products.Db) (id : string) (n : Z) :
  Js.parseInt id None = Js.Num n ->
  Products.delete_products Products.mem id db =
  match find (Products.has_id n) (Products.rows db) with
  | Some _ =>
      (deleted,
       Products.mkDb (filter (fun r => negb (Products.has_id n r)) (Products.rows db))
                     (Products.next_id db) (Products.clock db))
  | None => (mkResponse 404
      (Object [("status", VString "fail"); ("message", VString "Produk tidak ditemukan")]), db)
  end.
Proof.
  intros Hid. unfold Products.delete_products. run_handler.
  rewrite Hid. simpl. unfold Products.mem_delete.
  destruct (find (Products.has_id n) (Products.rows db)); reflexivity.
Qed.

(** C1 (as amended): on the products resource, when [parseInt] reads [:id]
    as an integer [n] (the number that stands for its digits) and no persisted
    record has the id [n], a DELETE, and a PUT whose body passes validation,
    are answered 404 with the body [{status: 'fail', message: 'Produk tidak
    ditemukan'}], and the store is unchanged; a DELETE repeated after a
    successful DELETE of the same id is answered 404. *)
Theorem products_missing_id_404 (db : Products.Db) (id : string) (n : Z) :
  Js.parseInt id None = Js.Num n ->
  (find (Products.has_id n) (Products.rows db) = None ->
   (forall kvs, supplied_ok kvs = true ->
                Products.put_products Products.mem id (JObj kvs) db
                  = (mkResponse 404
                      (Object [("status", VString "fail");
                               ("message", VString "Produk tidak ditemukan")]), db))
   /\ Products.delete_products Products.mem id db = (mkResponse 404
       (Object [("status", VString "fail"); ("message", VString "Produk tidak ditemukan")]), db))
  /\ (forall p, find (Products.has_id n) (Products.rows db) = Some p ->
      exists db',
        Products.delete_products Products.mem id db = (mkResponse 200
            (Object [("status", VString "success");
                     ("message", VString "Produk berhasil dihapus")]), db')
        /\ Products.delete_products Products.mem id db' = (mkResponse 404
            (Object [("status", VString "fail");
                     ("message", VString "Produk tidak ditemukan")]), db')).
Proof.
  intros Hid. split.
  - intros Hnone. split.
    + intros kvs Hok. now rewrite (put_products_valid db id n kvs Hid Hok), Hnone.
    + now rewrite (delete_products_mem db id n Hid), Hnone.
  - intros p Hp. eexists. split.
    + rewrite (delete_products_mem db id n Hid), Hp. reflexivity.
    + rewrite (delete_products_mem _ id n Hid). simpl.
      now rewrite find_after_delete.
Qed.

Lemma products_missing_id_404_witness :
  (Products.put_products Products.mem "999999" (JObj [("stock", JNum 5)]) one_product
     = (mkResponse 404
         (Object [("status", VString "fail");
                  ("message", VString "Produk tidak ditemukan")]), one_product)
   /\ Products.delete_products Products.mem "999999" one_product
     = (mkResponse 404
         (Object [("status", VString "fail");
                  ("message", VString "Produk tidak ditemukan")]), one_product))
  /\ exists db',
       Products.delete_products Products.mem "1" one_product = (mkResponse 200
           (Object [("status", VString "success");
                    ("message", VString "Produk berhasil dihapus")]), db')
       /\ Products.delete_products Products.mem "1" db' = (mkResponse 404
           (Object [("status", VString "fail");
                    ("message", VString "Produk tidak ditemukan")]), db').
Proof.
  split.
  - destruct (proj1 (products_missing_id_404 one_product "999999" 999999 eq_refl) eq_refl)
      as [Hput Hdel].
    split; [exact (Hput [("stock", JNum 5)] eq_refl) | exact Hdel].
  - exact (proj2 (products_missing_id_404 one_product "1" 1 eq_refl) widget eq_refl).
Defined.

(** C1 fails as stated.  On the users resource a DELETE or a PUT with an id
    that matches no record is answered 500: the [catch] of the users handlers
    tells only validation errors apart.  On the products resource a PUT whose
    body fails validation is answered 400 whether the id exists or not. *)
Lemma missing_id_not_404 :
  Users.delete_users Users.mem "999999" one_user
    = (mkResponse 500 (Object [("error", VString "Internal Server Error")]), one_user)
  /\ Users.put_users has_at Users.mem "999999"
       (JObj [("email", JStr "bob@example.com")]) one_user
    = (mkResponse 500 (Object [("error", VString "Internal Server Error")]), one_user)
  /\ Products.put_products Products.mem "999999" (JObj [("price", JNum (-1))]) one_product
    = (mkResponse 400
        
             (Object [("status", VString "fail");
                      ("errors", VErrors [mkIssue too_small ["price"] (Some "Harga harus angka positif")])]),
       one_product).
Proof. repeat split. Qed.

(** ** C9: the answers to a successful DELETE *)

(** C9: whenever the store deletes the record, DELETE /api/users/:id is
    answered 204 with no body and DELETE /api/products/:id is answered 200
    with a confirmation message; for every store. *)
Theorem delete_success_responses {Su Sp : Type} (pu : Users.Prisma Su)
    (pp : Products.Prisma Sp) (id : string) :
  (forall n u s s',
      Users.idSchema_parse id = inr n ->
      Users.delete pu n s = (inr u, s') ->
      Users.delete_users pu id s = (mkResponse 204 NoBody, s'))
  /\ (forall p s s',
      Products.delete pp (Js.parseInt id None) s = (inr p, s') ->
      Products.delete_products pp id s
        = (mkResponse 200
             (Object [("status", VString "success");
                      ("message", VString "Produk berhasil dihapus")]),
           s')).
Proof.
  split.
  - intros n u s s' Hid Hdel. unfold Users.delete_users. run_handler.
    now rewrite Hid, Hdel.
  - intros p s s' Hdel. unfold Products.delete_products. run_handler.
    now rewrite Hdel.
Qed.

Lemma delete_success_responses_witness :
  Users.delete_users Users.mem "12" one_user
    = (mkResponse 204 NoBody, Users.mkDb [] 13)
  /\ Products.delete_products Products.mem "1" one_product
    = (mkResponse 200
         (Object [("status", VString "success");
                  ("message", VString "Produk berhasil dihapus")]),
       Products.mkDb [] 2 1).
Proof.
  split.
  - apply (proj1 (delete_success_responses Users.mem Products.mem "12")
             (Js.Num 12) (User.make 12 "ann@example.com" (Some "Ann")));
      reflexivity.
  - apply (proj2 (delete_success_responses Users.mem Products.mem "1") widget);
      reflexivity.
Defined.

(** ** C4: the envelope *)

(** Case analysis on a scrutinee that contains no case analysis itself. *)
Ltac innermost_case :=
  match goal with
  | |- context [match ?x with _ => _ end] =>
      lazymatch x with
      | context [match _ with _ => _ end] => fail
      | _ => destruct x
      end
  end.

(** C4 (as amended): every response of every handler of the products router
    is in the envelope: 200 and 201 carry status [success] with [data] (or,
    for DELETE, a message), 400 carries status [fail] with [errors], 404
    status [fail] with a message, 500 status [error] with a message; for
    every store.  The users router does not wrap its bodies. *)
Theorem products_responses_enveloped {St : Type} (prisma : Products.Prisma St)
    (req : Products.Request) (s : St) :
  ProductReply (fst (Products.router prisma req s))
  /\ is_envelope (body (fst (Products.router prisma req s))) = true.
Proof.
  assert (R : ProductReply (fst (Products.router prisma req s))).
  { destruct req as [| |b|id b|id]; simpl;
      unfold Products.get_products, Products.get_stats, Products.post_products,
        Products.put_products, Products.delete_products, Products.not_found;
      run_handler;
      repeat innermost_case; simpl; constructor; auto. }
  split; [exact R | exact (ProductReply_envelope _ R)].
Qed.

(** C4 fails as stated: the users router sends its records bare, its
    validation errors as [{errors}] and its failures as [{error}], none with
    a [status] member. *)
Lemma users_responses_not_enveloped :
  fst (Users.get_users Users.mem one_user) = mkResponse 200 (Bare (DUsers (Users.rows one_user)))
  /\ is_envelope (body (fst (Users.get_users Users.mem one_user))) = false
  /\ is_envelope (body (fst (Users.post_users has_at Users.mem (JObj []) one_user))) = false
  /\ is_envelope (body (fst (Users.delete_users Users.mem "999999" one_user))) = false.
Proof. repeat split. Qed.

(** ** C6: price and stock *)

Lemma bad_payload_not_ok (kvs : list (string * Json)) :
  bad_price_or_stock kvs = true -> supplied_ok kvs = false.
Proof.
  unfold bad_price_or_stock, supplied_ok. intros H.
  apply orb_true_iff in H. destruct H as [H|H].
  - destruct (lookup "price" kvs) as [[| |q| | |]|]; try discriminate.
    simpl. rewrite H. simpl. now rewrite !andb_false_r.
  - destruct (lookup "stock" kvs) as [[| |q| | |]|]; try discriminate.
    simpl. destruct (Js.isInteger q), (Qle_bool 0 q); try discriminate;
      simpl; now rewrite ?andb_false_r.
Qed.

Lemma supplied_good_data (kvs : list (string * Json)) :
  supplied_ok kvs = true -> good_data (supplied_data kvs).
Proof.
  intros H. apply supplied_ok_fields in H. destruct H as (_ & _ & Hp & Hs & _).
  split; simpl; intros q E.
  - destruct (lookup "price" kvs) as [[| |x| | |]|]; try discriminate.
    inversion E; subst x. simpl in Hp.
    apply Qle_bool_false. now destruct (Qle_bool q 0).
  - destruct (lookup "stock" kvs) as [[| |x| | |]|]; try discriminate.
    inversion E; subst x. simpl in Hs. apply andb_true_iff in Hs. tauto.
Qed.

Lemma parse_good_data (sch : Products.ProductSchema) (body : Json)
    (d : Products.ProductData) :
  sch = Products.productSchema \/ sch = Products.partial Products.productSchema ->
  Products.parse sch body = inr d -> good_data d.
Proof.
  intros Hsch E. destruct (parse_not_object _ _ _ E) as [kvs ->].
  destruct Hsch; subst sch.
  - apply parse_full in E. destruct E as (H & -> & _). now apply supplied_good_data.
  - apply parse_partial in E. destruct E as (H & ->). now apply supplied_good_data.
Qed.

Lemma trim_name_good (d d' : Products.ProductData) :
  Products.trim_name d = inr d' -> good_data d -> good_data d'.
Proof.
  unfold Products.trim_name. destruct (Products.d_name d); [|discriminate].
  intros H; inversion H; subst d'. exact (fun G => G).
Qed.

Lemma new_row_good (d : Products.ProductData) (id now : Z) (p : Product.t) :
  good_data d -> Products.new_row d id now = Some p -> good_product p.
Proof.
  intros [Gp Gs]. unfold Products.new_row.
  destruct (Products.d_name d), (Products.d_category d),
    (Products.d_price d) as [q|], (Products.d_stock d) as [x|]; try discriminate.
  unfold Js.toInteger. destruct (Js.isInteger x); [|discriminate].
  intros H; inversion H; subst p. split; simpl.
  - now apply Gp.
  - apply nonneg_numerator. now apply Gs.
Qed.

Lemma patch_good (d : Products.ProductData) (st : option Z) (r : Product.t) :
  good_data d -> Products.stock_column d = Some st ->
  good_product r -> good_product (Products.patch d st r).
Proof.
  intros [Gp Gs] Hst [Rp Rs]. unfold Products.stock_column in Hst.
  split; simpl.
  - destruct (Products.d_price d) as [q|]; simpl; [now apply Gp | exact Rp].
  - destruct (Products.d_stock d) as [x|].
    + unfold Js.toInteger in Hst. destruct (Js.isInteger x); [|discriminate].
      inversion Hst; subst st. simpl. apply nonneg_numerator. now apply Gs.
    + inversion Hst; subst st. exact Rs.
Qed.

(** Every handler of the products router keeps the invariant of the rows. *)
Lemma router_keeps_good (req : Products.Request) (db : Products.Db) :
  Forall good_product (Products.rows db) ->
  Forall good_product (Products.rows (snd (Products.router Products.mem req db))).
Proof.
  intros G. destruct req as [| |b|id b|id]; simpl; try exact G.
  - unfold Products.post_products. run_handler.
    destruct (Products.parse _ b) as [e|d] eqn:E; [exact G|].
    pose proof (parse_good_data _ _ _ (or_introl eq_refl) E) as Gd.
    destruct (Products.trim_name d) as [e|d'] eqn:T; [exact G|].
    pose proof (trim_name_good _ _ T Gd) as Gd'.
    simpl. unfold Products.mem_create.
    destruct (Products.new_row d' _ _) as [p|] eqn:N; [|exact G].
    simpl. apply Forall_app. split; [exact G|].
    constructor; [|constructor]. exact (new_row_good _ _ _ _ Gd' N).
  - unfold Products.put_products. run_handler.
    destruct (Products.parse _ b) as [e|d] eqn:E; [exact G|].
    pose proof (parse_good_data _ _ _ (or_intror eq_refl) E) as Gd.
    simpl. unfold Products.mem_update.
    destruct (Js.parseInt id None) as [|n|?]; [exact G| |exact G].
    destruct (Products.stock_column d) as [st|] eqn:Hst; [|exact G].
    destruct (find _ _); [|exact G].
    simpl. apply Forall_forall. intros x Hx. apply in_map_iff in Hx.
    destruct Hx as (r & <- & Hr).
    pose proof (proj1 (Forall_forall _ _) G r Hr) as Gr.
    destruct (Products.has_id n r); [now apply patch_good | exact Gr].
  - unfold Products.delete_products. run_handler.
    simpl. unfold Products.mem_delete.
    destruct (Js.parseInt id None) as [|n|?]; [exact G| |exact G].
    destruct (find _ _); [|exact G].
    simpl. apply Forall_forall. intros x Hx. apply filter_In in Hx.
    exact (proj1 (Forall_forall _ _) G x (proj1 Hx)).
Qed.

Lemma run_keeps_good (reqs : list Products.Request) (db : Products.Db) :
  Forall good_product (Products.rows db) ->
  Forall good_product (Products.rows (run reqs db)).
Proof.
  revert db. induction reqs as [|req reqs IH]; intros db G; simpl; [exact G|].
  apply IH. now apply router_keeps_good.
Qed.

Lemma post_products_invalid {St : Type} (prisma : Products.Prisma St)
    (kvs : list (string * Json)) (s : St) :
  supplied_ok kvs = false ->
  exists errors,
    errors <> [] /\
    Products.post_products prisma (JObj kvs) s
      = (mkResponse 400 (Object [("status", VString "fail"); ("errors", VErrors errors)]), s).
Proof.
  intros Hbad. unfold Products.post_products. run_handler.
  destruct (Products.parse _ (JObj kvs)) as [e|d] eqn:E.
  - destruct (parse_throws_ZodError _ _ _ E) as (errors & -> & Hne).
    exists errors. split; [exact Hne | reflexivity].
  - apply parse_full in E. destruct E as [E _]. congruence.
Qed.

(** C6: a creation or a partial-update payload whose price is not positive,
    or whose stock is negative or not an integer, fails validation: the
    answer is 400 and the store, whatever its implementation, is not touched.
    Consequently every row of the reference store, which checks no sign
    itself, has a positive price and a stock that is not negative after any
    sequence of requests, from any store whose rows have them (the empty
    store among them). *)
Theorem price_stock_enforced :
  (forall (St : Type) (prisma : Products.Prisma St) (kvs : list (string * Json))
          (id : string) (s : St),
      bad_price_or_stock kvs = true ->
      (exists errors,
          errors <> [] /\
          Products.post_products prisma (JObj kvs) s
            = (mkResponse 400 (Object [("status", VString "fail"); ("errors", VErrors errors)]), s))
      /\ (exists errors,
          errors <> [] /\
          Products.put_products prisma id (JObj kvs) s
            = (mkResponse 400
                (Object [("status", VString "fail"); ("errors", VErrors errors)]), s)))
  /\ (forall (reqs : list Products.Request) (db : Products.Db),
      Forall good_product (Products.rows db) ->
      Forall good_product (Products.rows (run reqs db)))
  /\ (forall reqs : list Products.Request,
      Forall good_product (Products.rows (run reqs Products.empty))).
Proof.
  split; [|split].
  - intros St prisma kvs id s H. apply bad_payload_not_ok in H. split.
    + now apply post_products_invalid.
    + now apply put_products_invalid.
  - exact run_keeps_good.
  - intros reqs. apply run_keeps_good. constructor.
Qed.

Lemma price_stock_enforced_witness :
  (exists errors,
      errors <> [] /\
      Products.post_products Products.mem
        (JObj [("name", JStr "Widget"); ("category", JStr "Tools");
               ("price", JNum 0); ("stock", JNum 1)]) one_product
        = (mkResponse 400
            (Object [("status", VString "fail"); ("errors", VErrors errors)]), one_product))
  /\ Forall good_product
       (Products.rows
          (run [Products.POST_products widget_payload;
                Products.PUT_products_id "1" (JObj [("stock", JNum (-1))])]
               Products.empty)).
Proof.
  split.
  - exact (proj1 (proj1 price_stock_enforced Products.Db Products.mem
                    [("name", JStr "Widget"); ("category", JStr "Tools");
                     ("price", JNum 0); ("stock", JNum 1)]
                    "1" one_product eq_refl)).
  - exact (proj2 (proj2 price_stock_enforced) _).
Defined.

(** The store itself accepts a price that is not positive: the check is the
    validator's alone. *)
Example store_checks_no_sign :
  fst (Products.mem_create
         (Products.mkData (Some "Widget") (Some "Tools") (Some (-1)%Q) (Some 0%Q) None)
         Products.empty)
  = inr (Product.make 1 "Widget" "Tools" (-1)%Q 0 None 0).
Proof. reflexivity. Qed.

(** ** C8: the statistics *)

Lemma count_all (l : list Product.t) :
  Z.of_nat (length (filter (Products.matches Products.All) l)) = Z.of_nat (length l).
Proof.
  f_equal. induction l as [|a l IH]; simpl; [reflexivity | now rewrite IH].
Qed.




(** *** Sums that the doubles hold exactly *)












(** ** C2: the body of a PUT on a user *)

Lemma users_parse_ok (emailRegex : string -> bool) (kvs : list (string * Json)) :
  user_supplied_ok emailRegex kvs = true ->
  Users.parse (Users.userSchema emailRegex) (JObj kvs) = inr (user_supplied_data kvs).
Proof.
  unfold user_supplied_ok, user_supplied_data, Users.parse, Users.userSchema.
  intros H. apply andb_true_iff in H. destruct H as [He Hn].
  destruct (lookup "email" kvs) as [[| | |e| |]|]; try discriminate.
  destruct (lookup "name" kvs) as [[| | |x| |]|]; try discriminate;
    simpl in *; rewrite He; simpl; settle_checks.
Qed.

Lemma users_parse_bad (emailRegex : string -> bool) (kvs : list (string * Json)) :
  user_supplied_ok emailRegex kvs = false ->
  exists errors,
    errors <> [] /\
    Users.parse (Users.userSchema emailRegex) (JObj kvs) = inl (ZodError errors).
Proof.
  unfold user_supplied_ok, Users.parse, Users.userSchema. intros H.
  destruct (lookup "email" kvs) as [[| | |e| |]|];
    destruct (lookup "name" kvs) as [[| | |x| |]|]; simpl in *;
    try destruct (emailRegex e); simpl in *; settle_checks;
    try discriminate;
    (eexists; split; [|reflexivity]; discriminate).
Qed.

(** C2 (as amended): PUT /api/users/:id validates its body against the whole
    user schema.  When [email] is supplied and is an email address, and
    [name] is absent or a string of two characters or more, validation
    succeeds and the handler calls the store with the supplied fields only,
    answering 200 with the record the store returns (or by its [catch] when
    the store throws).  In every other case (no [email], an [email] that is
    not a string or not an email address, a [name] that is not a string or is
    shorter than two characters, a body that is not an object) the answer is
    400 with a list of errors that is not empty, and the store is not called;
    when [email] is absent the list has an error on [email]. *)
Theorem users_put_requires_email {St : Type} (emailRegex : string -> bool)
    (prisma : Users.Prisma St) (id : string) (n : Js.JsInt)
    (kvs : list (string * Json)) (s : St) :
  Users.idSchema_parse id = inr n ->
  (forall e,
      lookup "email" kvs = Some (JStr e) -> emailRegex e = true ->
      if_supplied user_name_ok (lookup "name" kvs) = true ->
      Users.put_users emailRegex prisma id (JObj kvs) s
      = match Users.update prisma n
                (Users.mkData (Some e) (supplied_string (lookup "name" kvs))) s with
        | (inr user, s') => (mkResponse 200 (Bare (DUser user)), s')
        | (inl (ZodError errors), s') =>
            (mkResponse 400 (Object [("errors", VErrors errors)]), s')
        | (inl _, s') =>
            (mkResponse 500 (Object [("error", VString "Internal Server Error")]), s')
        end)
  /\ (user_supplied_ok emailRegex kvs = false ->
      exists errors,
        errors <> []
        /\ Users.put_users emailRegex prisma id (JObj kvs) s
           = (mkResponse 400 (Object [("errors", VErrors errors)]), s))
  /\ (lookup "email" kvs = None ->
      exists errors,
        In (mkIssue invalid_type ["email"] None) errors
        /\ Users.put_users emailRegex prisma id (JObj kvs) s
           = (mkResponse 400 (Object [("errors", VErrors errors)]), s))
  /\ (forall body,
      match body with
      | JObj _ => True
      | _ =>
          Users.put_users emailRegex prisma id body s
          = (mkResponse 400
               (Object [("errors", VErrors [mkIssue invalid_type [] None])]), s)
      end).
Proof.
  intros Hid. unfold Users.put_users. run_handler. rewrite Hid.
  split; [|split; [|split]].
  - intros e He Hre Hname.
    assert (Hok : user_supplied_ok emailRegex kvs = true).
    { unfold user_supplied_ok. now rewrite He, Hre, Hname. }
    rewrite (users_parse_ok _ _ Hok). unfold user_supplied_data. rewrite He.
    cbn [supplied_string].
    now destruct (Users.update prisma n _ s) as [[[]|?] ?].
  - intros Hbad. destruct (users_parse_bad _ _ Hbad) as (errors & Hne & ->).
    exists errors. split; [exact Hne | reflexivity].
  - intros He. unfold Users.parse, Users.userSchema. rewrite He. simpl.
    destruct (parseString _ "name" _) as [i2 x]. simpl.
    eexists. split; [|reflexivity]. now left.
  - intros []; exact I || reflexivity.
Qed.

Lemma users_put_requires_email_witness :
  Users.put_users has_at Users.mem "12"
    (JObj [("email", JStr "ann@example.org")]) one_user
  = (mkResponse 200 (Bare (DUser (User.make 12 "ann@example.org" (Some "Ann")))),
     Users.mkDb [User.make 12 "ann@example.org" (Some "Ann")] 13).
Proof.
  rewrite (proj1 (users_put_requires_email has_at Users.mem "12" (Js.Num 12)
                    [("email", JStr "ann@example.org")] one_user eq_refl)
             "ann@example.org" eq_refl eq_refl eq_refl).
  reflexivity.
Defined.

(** C2 fails as stated: a PUT on an existing user with a body that supplies
    only a valid [name], or nothing, is answered 400, [email] being
    required. *)
Lemma users_put_name_only_400 :
  Users.put_users has_at Users.mem "12" (JObj [("name", JStr "Bob")]) one_user
    = (mkResponse 400
         (Object [("errors", VErrors [mkIssue invalid_type ["email"] None])]),
       one_user)
  /\ Users.put_users has_at Users.mem "12" (JObj []) one_user
    = (mkResponse 400
         (Object [("errors", VErrors [mkIssue invalid_type ["email"] None])]),
       one_user).
Proof. split; reflexivity. Qed.

(** ** C7: the length of a stored name *)

(** C7 (the code at the failing input): POST /api/products with the name
    ["  a  "] passes the length check, which runs on the name as received,
    and stores the trimmed name ["a"], of length 1. *)
Theorem padded_name_stored_short :
  Products.post_products Products.mem padded_payload Products.empty
    = (mkResponse 201
        
             (Object [("status", VString "success");
                      ("data", VData (DProduct (Product.make 1 "a" "Tools" 10%Q 1 None 0)))]),
       Products.mkDb [Product.make 1 "a" "Tools" 10%Q 1 None 0] 2 1)
  /\ map (fun p => String.length (Product.name p))
         (Products.rows
            (snd (Products.post_products Products.mem padded_payload Products.empty)))
     = [1%nat].
Proof. split; reflexivity. Qed.

(* ------------------------------------------------------------------ *)
(** * Further properties of the routers *)

(** ** Path parameters in decimal notation *)

Lemma parseDigits_uint (d : Decimal.uint) (a : Z) :
  Js.parseDigits 10 (NilEmpty.string_of_uint d) (Some a) = Some (uint_value a d).
Proof.
  revert a. induction d; intros a; simpl; auto.
Qed.

Lemma uint_value_acc (d : Decimal.uint) (acc : positive) :
  uint_value (Zpos acc) d = Zpos (Pos.of_uint_acc d acc).
Proof.
  revert acc. induction d; intros acc; cbn [uint_value Pos.of_uint_acc]; auto;
    match goal with
    | |- uint_value ?x _ = Zpos (Pos.of_uint_acc _ ?p) =>
        replace x with (Zpos p) by lia
    end; apply IHd.
Qed.

Lemma uint_value_of_uint (d : Decimal.uint) :
  uint_value 0 d = Z.of_N (Pos.of_uint d).
Proof.
  induction d; cbn [uint_value Pos.of_uint Z.of_N]; auto;
    apply (uint_value_acc d).
Qed.

(** A non-empty sequence of decimal digits is read as the number that
    stands for its value, with or without the radix argument. *)
Lemma parseInt_uint (d : Decimal.uint) (radix : option Z) :
  d <> Decimal.Nil -> radix = None \/ radix = Some 10 ->
  Js.parseInt (NilEmpty.string_of_uint d) radix = Js.toNumber (uint_value 0 d)
  /\ Js.parseInt (String "-" (NilEmpty.string_of_uint d)) radix
     = Js.toNumber (- uint_value 0 d).
Proof.
  intros Hd [-> | ->]; (destruct d as [|d|d|d|d|d|d|d|d|d|d]; [congruence|..]);
    try destruct d;
    unfold Js.parseInt; simpl;
    rewrite ?parseDigits_uint; simpl; split; f_equal;
    try reflexivity; try lia;
    match goal with
    | |- context [uint_value ?a ?d] => destruct (uint_value a d); reflexivity
    end.
Qed.

Lemma string_of_uint_nonnil (d : Decimal.uint) :
  d <> Decimal.Nil -> NilZero.string_of_uint d = NilEmpty.string_of_uint d.
Proof. destruct d; simpl; congruence. Qed.

(** A safe integer printed in decimal is read back by [parseInt], with or
    without the radix argument. *)
Lemma parseInt_decimal (n : Z) (radix : option Z) :
  radix = None \/ radix = Some 10 ->
  Js.isSafeInteger n = true ->
  exists path, Js.toString n = Some path /\ Js.parseInt path radix = Js.Num n.
Proof.
  intros Hr Hn. unfold Js.toString. rewrite Hn. eexists. split; [reflexivity|].
  rewrite <- (toNumber_safe n Hn). destruct n as [|p|p].
  - destruct Hr as [-> | ->]; reflexivity.
  - simpl Z.to_int. cbn [NilZero.string_of_int].
    rewrite (string_of_uint_nonnil _ (Unsigned.to_uint_nonnil p)).
    rewrite (proj1 (parseInt_uint _ radix (Unsigned.to_uint_nonnil p) Hr)).
    now rewrite uint_value_of_uint, Unsigned.of_to.
  - simpl Z.to_int. cbn [NilZero.string_of_int].
    rewrite (string_of_uint_nonnil _ (Unsigned.to_uint_nonnil p)).
    rewrite (proj2 (parseInt_uint _ radix (Unsigned.to_uint_nonnil p) Hr)).
    now rewrite uint_value_of_uint, Unsigned.of_to.
Qed.

(** X1: the decimal notation of a safe integer (below 2^53 in magnitude) is
    accepted as a path parameter and denotes that integer, in both routers:
    [idSchema] returns it, and [parseInt(id)] of the products handlers reads
    it.  Beyond that range [parseInt] rounds: the decimal notation of
    2^53 + 1 is read as 2^53. *)
Theorem decimal_id_round_trip (n : Z) :
  Js.isSafeInteger n = true ->
  exists path,
    Js.toString n = Some path
    /\ Users.idSchema_parse path = inr (Js.Num n)
    /\ Js.parseInt path None = Js.Num n.
Proof.
  intros Hn.
  destruct (parseInt_decimal n (Some 10) (or_intror eq_refl) Hn) as (path & Hp & H10).
  destruct (parseInt_decimal n None (or_introl eq_refl) Hn) as (path' & Hp' & H).
  assert (path' = path) by congruence. subst path'.
  exists path. split; [exact Hp|]. split; [|exact H].
  unfold Users.idSchema_parse. now rewrite H10.
Qed.

Lemma decimal_id_round_trip_witness :
  exists path,
    Js.toString 999999 = Some path
    /\ Users.idSchema_parse path = inr (Js.Num 999999)
    /\ Js.parseInt path None = Js.Num 999999.
Proof. apply (decimal_id_round_trip 999999). reflexivity. Defined.

(** Beyond the safe integers [parseInt] rounds, and from 2^1024 it returns
    an infinity, which [idSchema] lets through. *)
Example parseInt_rounds :
  Js.parseInt "9007199254740993" None = Js.Num 9007199254740992
  /\ Users.idSchema_parse "9007199254740993" = inr (Js.Num 9007199254740992).
Proof. split; vm_compute; reflexivity. Qed.

(** ** Characters after the number *)

Lemma parseDigits_stop (R : Z) (s : string) (c : ascii) (t : string) (acc : option Z) :
  match Js.digitValue c with Some d => d <? R | None => false end = false ->
  Js.parseDigits R (s ++ String c t) acc = Js.parseDigits R s acc.
Proof.
  intros Hc. revert acc. induction s as [|x s IH]; intros acc; simpl.
  - destruct (Js.digitValue c) as [d|]; [now rewrite Hc | reflexivity].
  - destruct (Js.digitValue x) as [d|]; [|reflexivity].
    destruct (d <? R); [apply IH | reflexivity].
Qed.

Lemma parseInt10_prefix (s : string) (c : ascii) (t : string) :
  startsWithDigit s = true -> notDecimalDigit c = true ->
  Js.parseInt (s ++ String c t) (Some 10) = Js.parseInt s (Some 10).
Proof.
  intros Hs Hc.
  assert (Hc' : match Js.digitValue c with Some d => d <? 10 | None => false end = false).
  { unfold notDecimalDigit in Hc. destruct (Js.digitValue c); [|reflexivity].
    now apply negb_true_iff. }
  destruct s as [|x s]; [discriminate|].
  destruct x as [[|] [|] [|] [|] [|] [|] [|] [|]]; try discriminate Hs;
    unfold Js.parseInt; simpl; now rewrite (parseDigits_stop 10 s c t _ Hc').
Qed.

(** X2: the users router reads the leading integer of [:id] and ignores what
    follows it: when [s] starts with a decimal digit and [c] is not one, a
    PUT or DELETE on [s ++ c ++ t] is handled as on [s], for every store. *)
Theorem users_id_trailing_ignored {St : Type} (emailRegex : string -> bool)
    (prisma : Users.Prisma St) (s : string) (c : ascii) (t : string)
    (body : Json) (st : St) :
  startsWithDigit s = true -> notDecimalDigit c = true ->
  Users.put_users emailRegex prisma (s ++ String c t) body st
    = Users.put_users emailRegex prisma s body st
  /\ Users.delete_users prisma (s ++ String c t) st = Users.delete_users prisma s st.
Proof.
  intros Hs Hc. unfold Users.put_users, Users.delete_users, Users.idSchema_parse.
  rewrite (parseInt10_prefix s c t Hs Hc). split; reflexivity.
Qed.

Lemma users_id_trailing_ignored_witness :
  Users.put_users has_at Users.mem "12abc" (JObj []) one_user
    = Users.put_users has_at Users.mem "12" (JObj []) one_user
  /\ Users.delete_users Users.mem "12abc" one_user = Users.delete_users Users.mem "12" one_user.
Proof.
  apply (users_id_trailing_ignored has_at Users.mem "12" "a" "bc" (JObj []) one_user);
    reflexivity.
Defined.

(** ** The answers of each route *)

(** X3: for every store, a route of the users router answers only with the
    statuses of [user_statuses] (never 404); its 500 answer is always the
    same body [{error: 'Internal Server Error'}], its 204 answer has no body
    and its 400 answer carries a list of errors. *)
Theorem users_router_answers {St : Type} (emailRegex : string -> bool)
    (prisma : Users.Prisma St) (req : Users.Request) (s : St) :
  In (status (fst (Users.router emailRegex prisma req s))) (user_statuses req)
  /\ (status (fst (Users.router emailRegex prisma req s)) = 500 ->
      fst (Users.router emailRegex prisma req s) = mkResponse 500
          (Object [("error", VString "Internal Server Error")]))
  /\ (status (fst (Users.router emailRegex prisma req s)) = 204 ->
      body (fst (Users.router emailRegex prisma req s)) = NoBody)
  /\ (status (fst (Users.router emailRegex prisma req s)) = 400 ->
      exists errors,
        body (fst (Users.router emailRegex prisma req s))
        = Object [("errors", VErrors errors)]).
Proof.
  destruct req as [|b|id b|id]; simpl;
    unfold Users.get_users, Users.post_users, Users.put_users, Users.delete_users,
      Users.on_error;
    run_handler;
    repeat innermost_case; simpl;
    (split; [tauto|]); repeat split; try discriminate; eauto.
Qed.

(** X4: for every store, a route of the products router answers only with
    the statuses of [product_statuses]: DELETE never answers 400, the reading
    routes never answer 400 or 404.  Its 500 answer always carries the fixed
    message of the route and its 404 answer the fixed not-found message:
    nothing of the error that was thrown reaches the body. *)
Theorem products_router_answers {St : Type} (prisma : Products.Prisma St)
    (req : Products.Request) (s : St) :
  In (status (fst (Products.router prisma req s))) (product_statuses req)
  /\ (status (fst (Products.router prisma req s)) = 500 ->
      body (fst (Products.router prisma req s))
      = Object [("status", VString "error"); ("message", VString (failure_message req))])
  /\ (status (fst (Products.router prisma req s)) = 404 ->
      fst (Products.router prisma req s) = mkResponse 404
          (Object [("status", VString "fail"); ("message", VString "Produk tidak ditemukan")])).
Proof.
  destruct req as [| |b|id b|id]; simpl;
    unfold Products.get_products, Products.get_stats, Products.post_products,
      Products.put_products, Products.delete_products, Products.not_found;
    run_handler;
    repeat innermost_case; simpl;
    (split; [tauto|]); repeat split; try discriminate; eauto.
Qed.

(** ** Keys outside the schema *)

Lemma products_parse_agree (sch : Products.ProductSchema) (kvs kvs' : list (string * Json)) :
  agree product_keys kvs kvs' ->
  Products.parse sch (JObj kvs) = Products.parse sch (JObj kvs').
Proof.
  intros A. unfold Products.parse.
  rewrite (A "name"), (A "category"), (A "price"), (A "stock"), (A "description");
    unfold product_keys; simpl; auto 8.
Qed.

Lemma users_parse_agree (sch : Users.UserSchema) (kvs kvs' : list (string * Json)) :
  agree user_keys kvs kvs' ->
  Users.parse sch (JObj kvs) = Users.parse sch (JObj kvs').
Proof.
  intros A. unfold Users.parse.
  rewrite (A "email"), (A "name"); unfold user_keys; simpl; auto.
Qed.

Lemma agree_extra_key (keys : list string) (k : string) (v : Json)
    (kvs : list (string * Json)) :
  ~ In k keys -> agree keys ((k, v) :: kvs) kvs.
Proof.
  intros Hk x Hx. simpl. destruct (String.eqb_spec x k); [subst; contradiction | reflexivity].
Qed.

(** X5: a member of the body whose key is not a key of the schema has no
    effect: POST and PUT of either router answer and act on the store as
    they do on the body without it, for every store.  A client cannot set
    [id] or [createdAt]. *)
Theorem unknown_keys_ignored {Su Sp : Type} (emailRegex : string -> bool)
    (pu : Users.Prisma Su) (pp : Products.Prisma Sp) (k : string) (v : Json)
    (kvs : list (string * Json)) (id : string) :
  (~ In k product_keys ->
   forall s,
     Products.post_products pp (JObj ((k, v) :: kvs)) s
       = Products.post_products pp (JObj kvs) s
     /\ Products.put_products pp id (JObj ((k, v) :: kvs)) s
       = Products.put_products pp id (JObj kvs) s)
  /\ (~ In k user_keys ->
      forall s,
        Users.post_users emailRegex pu (JObj ((k, v) :: kvs)) s
          = Users.post_users emailRegex pu (JObj kvs) s
        /\ Users.put_users emailRegex pu id (JObj ((k, v) :: kvs)) s
          = Users.put_users emailRegex pu id (JObj kvs) s).
Proof.
  split; intros Hk s.
  - unfold Products.post_products, Products.put_products.
    rewrite !(products_parse_agree _ _ kvs (agree_extra_key _ k v kvs Hk)).
    split; reflexivity.
  - unfold Users.post_users, Users.put_users.
    rewrite !(users_parse_agree _ _ kvs (agree_extra_key _ k v kvs Hk)).
    split; reflexivity.
Qed.

Lemma unknown_keys_ignored_witness :
  Products.put_products Products.mem "1"
    (JObj [("id", JNum 99); ("stock", JNum 5)]) one_product
  = Products.put_products Products.mem "1" (JObj [("stock", JNum 5)]) one_product.
Proof.
  apply (proj1 (unknown_keys_ignored has_at Users.mem Products.mem "id" (JNum 99)
                  [("stock", JNum 5)] "1")).
  unfold product_keys. simpl. intros H.
  repeat (destruct H as [H|H]; [discriminate H|]). exact H.
Defined.

(** ** Creating a product *)

(** The full schema accepts an object that supplies the four required
    fields, each supplied field satisfying its constraint. *)
Lemma parse_full_ok (kvs : list (string * Json)) :
  supplied_ok kvs = true ->
  (forall k, In k required_keys -> lookup k kvs <> None) ->
  Products.parse Products.productSchema (JObj kvs) = inr (supplied_data kvs).
Proof.
  intros Hok Hreq. apply supplied_ok_fields in Hok.
  destruct Hok as (H1 & H2 & H3 & H4 & H5).
  assert (R : forall k, In k required_keys -> lookup k kvs = None -> false = true).
  { intros k Hk E. destruct (Hreq k Hk E). }
  assert (R1 := R "name"). assert (R2 := R "category").
  assert (R3 := R "price"). assert (R4 := R "stock").
  unfold required_keys in R1, R2, R3, R4; simpl in R1, R2, R3, R4.
  assert (E1 : parseString (Products.s_name Products.productSchema)
                 "name" (lookup "name" kvs) = ([], supplied_string (lookup "name" kvs)))
    by (apply (name_parsed false); auto 12).
  assert (E2 : parseString (Products.s_category Products.productSchema)
                 "category" (lookup "category" kvs)
               = ([], supplied_string (lookup "category" kvs)))
    by (apply (category_parsed false); auto 12).
  assert (E3 : parseNumber (Products.s_price Products.productSchema)
                 "price" (lookup "price" kvs) = ([], supplied_number (lookup "price" kvs)))
    by (apply (price_parsed false); auto 12).
  assert (E4 : parseNumber (Products.s_stock Products.productSchema)
                 "stock" (lookup "stock" kvs) = ([], supplied_number (lookup "stock" kvs)))
    by (apply (stock_parsed false); auto 12).
  assert (E5 : parseString (Products.s_description Products.productSchema)
                 "description" (lookup "description" kvs)
               = ([], supplied_string (lookup "description" kvs)))
    by (apply description_parsed; auto).
  unfold Products.parse. rewrite E1, E2, E3, E4, E5. reflexivity.
Qed.

Lemma insert_desc_perm (p : Product.t) (l : list Product.t) :
  Permutation (Products.insert_desc p l) (p :: l).
Proof.
  induction l as [|x l IH]; simpl; [reflexivity|].
  destruct (Product.createdAt x <=? Product.createdAt p); [reflexivity|].
  rewrite IH. apply perm_swap.
Qed.

Lemma sort_desc_perm (l : list Product.t) : Permutation (Products.sort_desc l) l.
Proof.
  induction l as [|x l IH]; simpl; [reflexivity|].
  rewrite insert_desc_perm. now constructor.
Qed.

(** POST /products on a valid body, by what the reference store does. *)
Lemma post_products_valid (db : Products.Db) (kvs : list (string * Json))
    (n c : string) (p q : Q) :
  lookup "name" kvs = Some (JStr n) -> lookup "category" kvs = Some (JStr c) ->
  lookup "price" kvs = Some (JNum p) -> lookup "stock" kvs = Some (JNum q) ->
  supplied_ok kvs = true ->
  Products.post_products Products.mem (JObj kvs) db
  = (mkResponse 201
      
           (Object [("status", VString "success");
                    ("data", VData (DProduct (created_row db n c p q (supplied_string (lookup "description" kvs)))))]),
     inserted db (created_row db n c p q (supplied_string (lookup "description" kvs)))).
Proof.
  intros Hn Hc Hp Hq Hok.
  assert (Hreq : forall k, In k required_keys -> lookup k kvs <> None).
  { unfold required_keys. simpl. intros k [<-|[<-|[<-|[<-|[]]]]]; congruence. }
  unfold Products.post_products. run_handler.
  rewrite (parse_full_ok kvs Hok Hreq).
  unfold Products.trim_name, supplied_data. simpl.
  rewrite Hn, Hc, Hp, Hq. simpl.
  unfold Products.mem_create, Products.new_row. simpl.
  apply supplied_ok_fields in Hok. destruct Hok as (_ & _ & _ & Hs & _).
  rewrite Hq in Hs. simpl in Hs. apply andb_true_iff in Hs.
  destruct (toInteger_correct q (proj1 Hs)) as [-> _]. reflexivity.
Qed.

(** X6: POST /api/products on a body that supplies the four required fields,
    every supplied field satisfying its constraint, is answered 201 with the
    created record: the id and the creation time that the store assigns, the
    name trimmed, the other fields as supplied.  The record is appended to
    the store, a following GET /api/products lists it, and GET /api/stats
    counts one product more. *)
Theorem create_then_list (db : Products.Db) (kvs : list (string * Json))
    (n c : string) (p q : Q) :
  lookup "name" kvs = Some (JStr n) -> lookup "category" kvs = Some (JStr c) ->
  lookup "price" kvs = Some (JNum p) -> lookup "stock" kvs = Some (JNum q) ->
  supplied_ok kvs = true ->
  exists created db',
    created = created_row db n c p q (supplied_string (lookup "description" kvs))
    /\ db' = inserted db created
    /\ Products.post_products Products.mem (JObj kvs) db
       = (mkResponse 201
           (Object [("status", VString "success"); ("data", VData (DProduct created))]), db')
    /\ (inject_Z (Product.stock created) == q)%Q
    /\ (exists l,
          Products.get_products Products.mem db'
            = (mkResponse 200
                (Object [("status", VString "success"); ("data", VData (DProducts l))]), db')
          /\ In created l)
    /\ (exists lowStock totalValue,
          Products.get_stats Products.mem db'
            = (mkResponse 200
                
                     (Object [("status", VString "success");
                              ("data", VData (DStats (Z.of_nat (length (Products.rows db)) + 1)
                            lowStock totalValue))]),
               db')).
Proof.
  intros Hn Hc Hp Hq Hok. eexists. eexists.
  split; [reflexivity|]. split; [reflexivity|].
  split; [now apply post_products_valid|].
  split.
  { apply supplied_ok_fields in Hok. destruct Hok as (_ & _ & _ & Hs & _).
    rewrite Hq in Hs. simpl in Hs. apply andb_true_iff in Hs.
    apply toInteger_correct. tauto. }
  split.
  - eexists. split; [reflexivity|].
    apply (Permutation_in _ (Permutation_sym (sort_desc_perm _))).
    simpl. apply in_or_app. right. now left.
  - eexists. eexists. unfold Products.get_stats. run_handler. simpl.
    rewrite count_all. unfold inserted. simpl.
    rewrite length_app. simpl. rewrite Nat2Z.inj_add. reflexivity.
Qed.

Lemma create_then_list_witness :
  exists created db',
    created = created_row Products.empty "Widget" "Tools" 10%Q 1%Q None
    /\ db' = inserted Products.empty created
    /\ Products.post_products Products.mem widget_payload Products.empty
       = (mkResponse 201
           (Object [("status", VString "success"); ("data", VData (DProduct created))]), db')
    /\ (inject_Z (Product.stock created) == 1)%Q
    /\ (exists l,
          Products.get_products Products.mem db'
            = (mkResponse 200
                (Object [("status", VString "success"); ("data", VData (DProducts l))]), db')
          /\ In created l)
    /\ (exists lowStock totalValue,
          Products.get_stats Products.mem db'
            = (mkResponse 200
                
                     (Object [("status", VString "success");
                              ("data", VData (DStats (Z.of_nat (length (Products.rows Products.empty)) + 1)
                            lowStock totalValue))]),
               db')).
Proof.
  exact (create_then_list Products.empty
           [("name", JStr "Widget"); ("category", JStr "Tools");
            ("price", JNum 10); ("stock", JNum 1)]
           "Widget" "Tools" 10%Q 1%Q eq_refl eq_refl eq_refl eq_refl eq_refl).
Defined.

(** ** A required field that is missing *)

Lemma issues_thrown {A B : Type} (issue : ZodIssue) (issues : list ZodIssue)
    (ok : A) (f : Result A -> B) :
  In issue issues ->
  f (match issues with [] => inr ok | _ => inl (ZodError issues) end)
  = f (inl (ZodError issues)).
Proof. destruct issues; [contradiction | reflexivity]. Qed.

(** X8: POST /api/products on an object that lacks one of [name],
    [category], [price], [stock], and POST /api/users on an object that lacks
    [email], are answered 400 with an error whose path is the missing key;
    the store is not called, whatever its implementation. *)
Theorem missing_required_field_400 {Su Sp : Type} (emailRegex : string -> bool)
    (pu : Users.Prisma Su) (pp : Products.Prisma Sp) (kvs : list (string * Json)) :
  (forall k s,
      In k required_keys -> lookup k kvs = None ->
      exists errors,
        In (mkIssue invalid_type [k] None) errors
        /\ Products.post_products pp (JObj kvs) s
           = (mkResponse 400 (Object [("status", VString "fail"); ("errors", VErrors errors)]), s))
  /\ (forall s,
      lookup "email" kvs = None ->
      exists errors,
        In (mkIssue invalid_type ["email"] None) errors
        /\ Users.post_users emailRegex pu (JObj kvs) s
           = (mkResponse 400 (Object [("errors", VErrors errors)]), s)).
Proof.
  split.
  - intros k s Hk Hnone. unfold Products.post_products, Products.parse. run_handler.
    destruct (parseString _ "name" _) as [i1 n] eqn:E1.
    destruct (parseString _ "category" _) as [i2 c] eqn:E2.
    destruct (parseNumber _ "price" _) as [i3 p] eqn:E3.
    destruct (parseNumber _ "stock" _) as [i4 q] eqn:E4.
    destruct (parseString _ "description" _) as [i5 d] eqn:E5.
    assert (HIn : In (mkIssue invalid_type [k] None) (i1 ++ i2 ++ i3 ++ i4 ++ i5)).
    { unfold required_keys in Hk. simpl in Hk.
      destruct Hk as [<-|[<-|[<-|[<-|[]]]]]; rewrite Hnone in *; simpl in *.
      - inversion E1; subst. now left.
      - inversion E2; subst. apply in_or_app. right. now left.
      - inversion E3; subst. do 2 (apply in_or_app; right). now left.
      - inversion E4; subst. do 3 (apply in_or_app; right). now left. }
    exists (i1 ++ i2 ++ i3 ++ i4 ++ i5). split; [exact HIn|].
    destruct (i1 ++ i2 ++ i3 ++ i4 ++ i5); [contradiction | reflexivity].
  - intros s Hnone. unfold Users.post_users, Users.parse. run_handler.
    rewrite Hnone. simpl.
    destruct (parseString _ "name" _) as [i2 x]. simpl.
    eexists. split; [|reflexivity]. now left.
Qed.

Lemma missing_required_field_400_witness :
  exists errors,
    In (mkIssue invalid_type ["price"] None) errors
    /\ Products.post_products Products.mem
         (JObj [("name", JStr "Widget"); ("category", JStr "Tools"); ("stock", JNum 1)])
         one_product
       = (mkResponse 400
           (Object [("status", VString "fail"); ("errors", VErrors errors)]), one_product).
Proof.
  apply (proj1 (missing_required_field_400 has_at Users.mem Products.mem
                  [("name", JStr "Widget"); ("category", JStr "Tools"); ("stock", JNum 1)])
           "price" one_product).
  - unfold required_keys. simpl. tauto.
  - reflexivity.
Defined.

(** ** The name that is stored *)

Lemma trimStart_length (s : string) :
  (String.length (Js.trimStart s) <= String.length s)%nat.
Proof.
  induction s as [|c s IH]; simpl; [lia|].
  destruct (Js.isWhiteSpace c); simpl; lia.
Qed.

Lemma trimStart_no_space (s : string) : startsWithSpace (Js.trimStart s) = false.
Proof.
  induction s as [|c s IH]; simpl; [reflexivity|].
  destruct (Js.isWhiteSpace c) eqn:E; [exact IH | simpl; exact E].
Qed.

Lemma trimStart_id (s : string) : startsWithSpace s = false -> Js.trimStart s = s.
Proof. destruct s as [|c s]; simpl; [reflexivity | now intros ->]. Qed.

Lemma rev_string_length (s acc : string) :
  String.length (Js.rev_string s acc) = (String.length s + String.length acc)%nat.
Proof.
  revert acc. induction s as [|c s IH]; intros acc; simpl; [reflexivity|].
  rewrite IH. simpl. lia.
Qed.

Lemma rev_string_rev (s acc acc' : string) :
  Js.rev_string (Js.rev_string s acc) acc' = Js.rev_string acc (s ++ acc')%string.
Proof.
  revert acc acc'. induction s as [|c s IH]; intros acc acc'; simpl; [reflexivity|].
  now rewrite IH.
Qed.

Lemma rev_string_involutive (s : string) :
  Js.rev_string (Js.rev_string s EmptyString) EmptyString = s.
Proof.
  rewrite rev_string_rev. simpl.
  induction s as [|c s IH]; simpl; [reflexivity | now rewrite IH].
Qed.

Lemma append_snoc (r : string) (c : ascii) (acc : string) :
  ((r ++ String c EmptyString) ++ acc)%string = (r ++ String c acc)%string.
Proof. induction r as [|x r IH]; simpl; [reflexivity | now rewrite IH]. Qed.

Lemma rev_string_acc (s acc : string) :
  Js.rev_string s acc = (Js.rev_string s EmptyString ++ acc)%string.
Proof.
  revert acc. induction s as [|c s IH]; intros acc; simpl; [reflexivity|].
  rewrite (IH (String c acc)), (IH (String c EmptyString)).
  now rewrite append_snoc.
Qed.

Lemma rev_string_snoc (s : string) (c : ascii) (acc : string) :
  Js.rev_string (s ++ String c EmptyString)%string acc = String c (Js.rev_string s acc).
Proof.
  revert acc. induction s as [|x s IH]; intros acc; simpl; [reflexivity | apply IH].
Qed.

Lemma trimStart_snoc (s : string) (c : ascii) :
  Js.isWhiteSpace c = false ->
  Js.trimStart (s ++ String c EmptyString)%string = (Js.trimStart s ++ String c EmptyString)%string.
Proof.
  intros Hc. induction s as [|x s IH]; simpl; [now rewrite Hc|].
  destruct (Js.isWhiteSpace x); [exact IH | reflexivity].
Qed.

Lemma trimEnd_cons (c : ascii) (s : string) :
  Js.isWhiteSpace c = false -> Js.trimEnd (String c s) = String c (Js.trimEnd s).
Proof.
  intros Hc. unfold Js.trimEnd. simpl.
  rewrite (rev_string_acc s (String c EmptyString)).
  rewrite (trimStart_snoc _ c Hc). apply rev_string_snoc.
Qed.

Lemma trim_length (s : string) : (String.length (Js.trim s) <= String.length s)%nat.
Proof.
  unfold Js.trim, Js.trimEnd. rewrite rev_string_length. simpl.
  pose proof (trimStart_length (Js.rev_string (Js.trimStart s) EmptyString)) as H.
  rewrite rev_string_length in H. simpl in H.
  pose proof (trimStart_length s). lia.
Qed.

Lemma trim_no_space (s : string) :
  startsWithSpace (Js.trim s) = false /\ endsWithSpace (Js.trim s) = false.
Proof.
  unfold Js.trim. split.
  - pose proof (trimStart_no_space s) as H.
    destruct (Js.trimStart s) as [|c u]; [reflexivity|].
    simpl in H. rewrite (trimEnd_cons c u H). exact H.
  - unfold endsWithSpace, Js.trimEnd. rewrite rev_string_involutive.
    apply trimStart_no_space.
Qed.

Lemma trim_id (s : string) :
  startsWithSpace s = false -> endsWithSpace s = false -> Js.trim s = s.
Proof.
  intros Hs He. unfold Js.trim. rewrite (trimStart_id s Hs).
  unfold Js.trimEnd. unfold endsWithSpace in He.
  rewrite (trimStart_id _ He). apply rev_string_involutive.
Qed.

(** X9: the name of a product created by POST /api/products has no white
    space at its start or end and at most 100 characters, and is never longer
    than the name received; a name received without white space at its start
    and end is stored as received, with 3 to 100 characters. *)
Theorem created_name_trimmed (db : Products.Db) (kvs : list (string * Json))
    (n c : string) (p q : Q) :
  lookup "name" kvs = Some (JStr n) -> lookup "category" kvs = Some (JStr c) ->
  lookup "price" kvs = Some (JNum p) -> lookup "stock" kvs = Some (JNum q) ->
  supplied_ok kvs = true ->
  exists created db',
    Products.post_products Products.mem (JObj kvs) db
      = (mkResponse 201
          (Object [("status", VString "success"); ("data", VData (DProduct created))]), db')
    /\ In created (Products.rows db')
    /\ startsWithSpace (Product.name created) = false
    /\ endsWithSpace (Product.name created) = false
    /\ (String.length (Product.name created) <= String.length n <= 100)%nat
    /\ (startsWithSpace n = false -> endsWithSpace n = false ->
        Product.name created = n
        /\ (3 <= String.length (Product.name created) <= 100)%nat).
Proof.
  intros Hn Hc Hp Hq Hok.
  assert (Hlen : (3 <= String.length n <= 100)%nat).
  { apply supplied_ok_fields in Hok. destruct Hok as (H & _).
    rewrite Hn in H. simpl in H. apply andb_true_iff in H.
    destruct H as [H1 H2]. apply Nat.leb_le in H1, H2. lia. }
  eexists. eexists.
  split; [apply (post_products_valid db kvs n c p q); assumption|].
  split; [simpl; apply in_or_app; right; now left|].
  simpl. destruct (trim_no_space n) as [T1 T2].
  split; [exact T1|]. split; [exact T2|].
  split; [pose proof (trim_length n); lia|].
  intros Hs He. rewrite (trim_id n Hs He). split; [reflexivity | exact Hlen].
Qed.

Lemma created_name_trimmed_witness :
  exists created db',
    Products.post_products Products.mem widget_payload Products.empty
      = (mkResponse 201
          (Object [("status", VString "success"); ("data", VData (DProduct created))]), db')
    /\ In created (Products.rows db')
    /\ startsWithSpace (Product.name created) = false
    /\ endsWithSpace (Product.name created) = false
    /\ (String.length (Product.name created) <= String.length "Widget" <= 100)%nat
    /\ (startsWithSpace "Widget" = false -> endsWithSpace "Widget" = false ->
        Product.name created = "Widget"
        /\ (3 <= String.length (Product.name created) <= 100)%nat).
Proof.
  exact (created_name_trimmed Products.empty
           [("name", JStr "Widget"); ("category", JStr "Tools");
            ("price", JNum 10); ("stock", JNum 1)]
           "Widget" "Tools" 10%Q 1%Q eq_refl eq_refl eq_refl eq_refl eq_refl).
Defined.

(** ** Creating a user *)

(** X11: POST /api/users validates its body against [userSchema]: when
    [email] is a string that matches the email pattern and [name] is absent
    or a string of two characters or more, the store is asked to create the
    user from the supplied fields and the answer is 201 with the record it
    returns (or that of the [catch] when it throws); otherwise the answer is
    400 with a list of errors that is not empty and the store is not called.
    For every store. *)
Theorem users_post_validated {St : Type} (emailRegex : string -> bool)
    (prisma : Users.Prisma St) (kvs : list (string * Json)) (s : St) :
  (user_supplied_ok emailRegex kvs = true ->
   Users.post_users emailRegex prisma (JObj kvs) s
   = match Users.create prisma (user_supplied_data kvs) s with
     | (inr user, s') => (mkResponse 201 (Bare (DUser user)), s')
     | (inl (ZodError errors), s') =>
            (mkResponse 400 (Object [("errors", VErrors errors)]), s')
        | (inl _, s') =>
            (mkResponse 500 (Object [("error", VString "Internal Server Error")]), s')
     end)
  /\ (user_supplied_ok emailRegex kvs = false ->
      exists errors,
        errors <> [] /\
        Users.post_users emailRegex prisma (JObj kvs) s
        = (mkResponse 400 (Object [("errors", VErrors errors)]), s)).
Proof.
  unfold Users.post_users. run_handler. split; intros H.
  - rewrite (users_parse_ok _ _ H).
    now destruct (Users.create prisma _ s) as [[[]|?] ?].
  - destruct (users_parse_bad _ _ H) as (errors & Hne & ->).
    exists errors. split; [exact Hne | reflexivity].
Qed.

Lemma users_post_validated_witness :
  Users.post_users has_at Users.mem
    (JObj [("email", JStr "bob@example.com"); ("name", JStr "Bob")]) one_user
  = (mkResponse 201 (Bare (DUser (User.make 13 "bob@example.com" (Some "Bob")))),
     Users.mkDb [User.make 12 "ann@example.com" (Some "Ann");
                 User.make 13 "bob@example.com" (Some "Bob")] 14).
Proof.
  rewrite (proj1 (users_post_validated has_at Users.mem
                    [("email", JStr "bob@example.com"); ("name", JStr "Bob")] one_user)
             eq_refl).
  reflexivity.
Defined.

(** ** Sign up, list, delete *)

#[local] Arguments Users.email_taken : simpl never.

Lemma users_find_fresh (n : Z) (l : list User.t) (u : User.t) :
  (forall x, In x l -> User.id x <> n) ->
  find (Users.has_id n) (l ++ [u]) = find (Users.has_id n) [u]
  /\ filter (fun r => negb (Users.has_id n r)) l = l.
Proof.
  induction l as [|a l IH]; intros H; [split; reflexivity|].
  assert (Ha : Users.has_id n a = false).
  { unfold Users.has_id. apply Z.eqb_neq. apply H. now left. }
  destruct IH as [IH1 IH2]; [intros x Hx; apply H; now right|].
  simpl. rewrite Ha. simpl. now rewrite IH1, IH2.
Qed.

(** X12: the scenario of the test script, on the reference store.  A POST
    /api/users with a valid body whose email is not taken is answered 201
    with the user under the id the store assigns; a GET /api/users then lists
    the rows with the new user last; a DELETE /api/users/<id>, the id (a safe
    integer) printed in decimal, is answered 204 and leaves the rows as they
    were before the POST. *)
Theorem signup_list_delete (emailRegex : string -> bool) (db : Users.Db)
    (kvs : list (string * Json)) (e : string) :
  lookup "email" kvs = Some (JStr e) ->
  user_supplied_ok emailRegex kvs = true ->
  Users.email_taken (Some e) None (Users.rows db) = false ->
  fresh_next_id db ->
  Js.isSafeInteger (Users.next_id db) = true ->
  exists user db1 path,
    user = User.make (Users.next_id db) e (supplied_string (lookup "name" kvs))
    /\ db1 = Users.mkDb (Users.rows db ++ [user]) (Users.next_id db + 1)
    /\ Users.post_users emailRegex Users.mem (JObj kvs) db
       = (mkResponse 201 (Bare (DUser user)), db1)
    /\ Users.get_users Users.mem db1
       = (mkResponse 200 (Bare (DUsers (Users.rows db ++ [user]))), db1)
    /\ Js.toString (User.id user) = Some path
    /\ Users.delete_users Users.mem path db1
       = (mkResponse 204 NoBody, Users.mkDb (Users.rows db) (Users.next_id db + 1)).
Proof.
  intros He Hok Hfree Hfresh Hsafe.
  destruct (parseInt_decimal (Users.next_id db) (Some 10) (or_intror eq_refl) Hsafe)
    as (path & Hpath & Hparse).
  do 2 eexists. exists path.
  split; [reflexivity|]. split; [reflexivity|]. split; [|split; [|split]].
  - unfold Users.post_users. run_handler. rewrite (users_parse_ok _ _ Hok).
    unfold user_supplied_data. rewrite He. simpl.
    unfold Users.mem_create. simpl. now rewrite Hfree.
  - reflexivity.
  - exact Hpath.
  - unfold Users.delete_users, Users.idSchema_parse. run_handler.
    rewrite Hparse. simpl.
    unfold Users.mem_delete. simpl.
    destruct (users_find_fresh (Users.next_id db) (Users.rows db)
                (User.make (Users.next_id db) e (supplied_string (lookup "name" kvs)))
                Hfresh) as [F1 F2].
    rewrite F1. simpl. unfold Users.has_id at 1. simpl. rewrite Z.eqb_refl.
    rewrite filter_app, F2. simpl. unfold Users.has_id at 1. simpl.
    rewrite Z.eqb_refl. simpl. now rewrite app_nil_r.
Qed.

Lemma signup_list_delete_witness :
  exists user db1 path,
    user = User.make 13 "test@example.com" (Some "Test User")
    /\ db1 = Users.mkDb (Users.rows one_user ++ [user]) 14
    /\ Users.post_users has_at Users.mem
         (JObj [("email", JStr "test@example.com"); ("name", JStr "Test User")]) one_user
       = (mkResponse 201 (Bare (DUser user)), db1)
    /\ Users.get_users Users.mem db1
       = (mkResponse 200 (Bare (DUsers (Users.rows one_user ++ [user]))), db1)
    /\ Js.toString (User.id user) = Some path
    /\ Users.delete_users Users.mem path db1
       = (mkResponse 204 NoBody, Users.mkDb (Users.rows one_user) 14).
Proof.
  apply (signup_list_delete has_at one_user
           [("email", JStr "test@example.com"); ("name", JStr "Test User")]
           "test@example.com"); try reflexivity.
  intros u [<-|[]]. discriminate.
Defined.

(** ** Updating a user *)

(** X13: PUT /api/users/:id on the reference store, for an id that exists
    and a valid body: when no other user has the email, the answer is 200
    with the user under the same id, the email replaced, and the name
    replaced when one is supplied and kept otherwise; when another user has
    the email, the store refuses and the answer is 500, the store unchanged. *)
Theorem users_put_on_store (emailRegex : string -> bool) (db : Users.Db)
    (id : string) (n : Z) (u : User.t) (kvs : list (string * Json)) (e : string) :
  Users.idSchema_parse id = inr (Js.Num n) ->
  find (Users.has_id n) (Users.rows db) = Some u ->
  lookup "email" kvs = Some (JStr e) ->
  user_supplied_ok emailRegex kvs = true ->
  (Users.email_taken (Some e) (Some n) (Users.rows db) = false ->
   Users.put_users emailRegex Users.mem id (JObj kvs) db
   = (mkResponse 200
        (Bare (DUser (User.make (User.id u) e
                        (match lookup "name" kvs with
                         | Some (JStr x) => Some x
                         | _ => User.name u
                         end)))),
      Users.mkDb
        (map (fun r => if Users.has_id n r
                       then Users.patch (user_supplied_data kvs) r else r)
             (Users.rows db))
        (Users.next_id db)))
  /\ (Users.email_taken (Some e) (Some n) (Users.rows db) = true ->
      Users.put_users emailRegex Users.mem id (JObj kvs) db
      = (mkResponse 500 (Object [("error", VString "Internal Server Error")]), db)).
Proof.
  intros Hid Hu He Hok.
  unfold Users.put_users. run_handler. rewrite Hid, (users_parse_ok _ _ Hok).
  simpl. unfold Users.mem_update. rewrite Hu.
  unfold user_supplied_data at 1 3. rewrite He. simpl.
  split; intros ->; [|reflexivity].
  unfold Users.patch, user_supplied_data. rewrite He. simpl.
  now destruct (lookup "name" kvs) as [[]|].
Qed.

Lemma users_put_on_store_witness :
  Users.put_users has_at Users.mem "12" (JObj [("email", JStr "ann@example.org")]) one_user
  = (mkResponse 200 (Bare (DUser (User.make 12 "ann@example.org" (Some "Ann")))),
     Users.mkDb [User.make 12 "ann@example.org" (Some "Ann")] 13).
Proof.
  apply (proj1 (users_put_on_store has_at one_user "12" 12
                  (User.make 12 "ann@example.com" (Some "Ann"))
                  [("email", JStr "ann@example.org")] "ann@example.org"
                  eq_refl eq_refl eq_refl eq_refl)).
  reflexivity.
Defined.

(** ** Repeating an update *)

Lemma updated_idempotent (kvs : list (string * Json)) (r : Product.t) :
  updated kvs (updated kvs r) = updated kvs r.
Proof.
  unfold updated. simpl.
  destruct (lookup "name" kvs) as [[]|], (lookup "category" kvs) as [[]|],
    (lookup "price" kvs) as [[]|], (lookup "stock" kvs) as [[]|],
    (lookup "description" kvs) as [[]|]; reflexivity.
Qed.

Lemma find_updated (n : Z) (kvs : list (string * Json)) (l : list Product.t) :
  find (Products.has_id n)
       (map (fun r => if Products.has_id n r then updated kvs r else r) l)
  = option_map (updated kvs) (find (Products.has_id n) l).
Proof.
  induction l as [|a l IH]; simpl; [reflexivity|].
  destruct (Products.has_id n a) eqn:E; simpl.
  - unfold Products.has_id in *. simpl. now rewrite E.
  - now rewrite E.
Qed.

(** X14: PUT /api/products/:id is idempotent on the reference store: a
    second PUT with the same id and the same valid body gets the answer of
    the first and leaves the store as the first left it. *)
Theorem put_products_idempotent (db : Products.Db) (id : string) (n : Z)
    (kvs : list (string * Json)) :
  Js.parseInt id None = Js.Num n ->
  supplied_ok kvs = true ->
  Products.put_products Products.mem id (JObj kvs)
    (snd (Products.put_products Products.mem id (JObj kvs) db))
  = Products.put_products Products.mem id (JObj kvs) db.
Proof.
  intros Hid Hok. rewrite !(put_products_valid _ id n kvs Hid Hok).
  destruct (find (Products.has_id n) (Products.rows db)) as [p|] eqn:F; simpl.
  - rewrite find_updated, F. simpl. rewrite updated_idempotent.
    f_equal. f_equal. rewrite map_map. apply map_ext. intros r.
    destruct (Products.has_id n r) eqn:E.
    + assert (E' : Products.has_id n (updated kvs r) = true) by exact E.
      now rewrite E', updated_idempotent.
    + now rewrite E.
  - now rewrite F.
Qed.

Lemma put_products_idempotent_witness :
  Products.put_products Products.mem "1" (JObj [("stock", JNum 5)])
    (snd (Products.put_products Products.mem "1" (JObj [("stock", JNum 5)]) one_product))
  = Products.put_products Products.mem "1" (JObj [("stock", JNum 5)]) one_product.
Proof.
  apply (put_products_idempotent one_product "1" 1 [("stock", JNum 5)]); reflexivity.
Defined.

(** ** Creating and deleting a product *)

Lemma products_find_fresh (n : Z) (l : list Product.t) (p : Product.t) :
  (forall x, In x l -> Product.id x <> n) ->
  find (Products.has_id n) (l ++ [p]) = find (Products.has_id n) [p]
  /\ filter (fun r => negb (Products.has_id n r)) l = l.
Proof.
  induction l as [|a l IH]; intros H; [split; reflexivity|].
  assert (Ha : Products.has_id n a = false).
  { unfold Products.has_id. apply Z.eqb_neq. apply H. now left. }
  destruct IH as [IH1 IH2]; [intros x Hx; apply H; now right|].
  simpl. rewrite Ha. simpl. now rewrite IH1, IH2.
Qed.

(** X15: on the reference store, a product created by POST /api/products is
    deleted by DELETE /api/products/<id>, the id of the answer (a safe
    integer) printed in decimal: the answer is 200 with the confirmation and
    the rows are those before the POST. *)
Theorem create_then_delete (db : Products.Db) (kvs : list (string * Json))
    (n c : string) (p q : Q) :
  lookup "name" kvs = Some (JStr n) -> lookup "category" kvs = Some (JStr c) ->
  lookup "price" kvs = Some (JNum p) -> lookup "stock" kvs = Some (JNum q) ->
  supplied_ok kvs = true ->
  fresh_next_product_id db ->
  Js.isSafeInteger (Products.next_id db) = true ->
  exists created db1 path,
    Products.post_products Products.mem (JObj kvs) db
      = (mkResponse 201
           (Object [("status", VString "success"); ("data", VData (DProduct created))]),
         db1)
    /\ Js.toString (Product.id created) = Some path
    /\ Products.delete_products Products.mem path db1
       = (deleted,
          Products.mkDb (Products.rows db) (Products.next_id db + 1)
                        (Products.clock db + 1)).
Proof.
  intros Hn Hc Hp Hq Hok Hfresh Hsafe.
  destruct (parseInt_decimal (Products.next_id db) None (or_introl eq_refl) Hsafe)
    as (path & Hpath & Hparse).
  do 2 eexists. exists path.
  split; [apply (post_products_valid db kvs n c p q); assumption|].
  split; [exact Hpath|].
  rewrite (delete_products_mem _ _ (Products.next_id db) Hparse).
  destruct (products_find_fresh (Products.next_id db) (Products.rows db)
              (created_row db n c p q (supplied_string (lookup "description" kvs)))
              Hfresh) as [F1 F2].
  simpl. rewrite F1. simpl. unfold Products.has_id at 1. simpl. rewrite Z.eqb_refl.
  rewrite filter_app, F2. simpl. unfold Products.has_id at 1. simpl.
  rewrite Z.eqb_refl. simpl. now rewrite app_nil_r.
Qed.

Lemma create_then_delete_witness :
  exists created db1 path,
    Products.post_products Products.mem widget_payload Products.empty
      = (mkResponse 201
           (Object [("status", VString "success"); ("data", VData (DProduct created))]),
         db1)
    /\ Js.toString (Product.id created) = Some path
    /\ Products.delete_products Products.mem path db1
       = (deleted, Products.mkDb [] 2 1).
Proof.
  apply (create_then_delete Products.empty
           [("name", JStr "Widget"); ("category", JStr "Tools");
            ("price", JNum 10); ("stock", JNum 1)]
           "Widget" "Tools" 10%Q 1%Q); try reflexivity.
  intros x [].
Defined.

(** ** What [idSchema] accepts *)

Lemma nearest_bounds (N D : Z) :
  0 <= N -> 0 < D -> N / D <= Js.nearest N D <= N / D + 1.
Proof.
  intros HN HD. unfold Js.nearest.
  destruct ((D <? 2 * (N mod D)) || ((2 * (N mod D) =? D) && Z.odd (N / D))); lia.
Qed.

(** An integer from 2^1024 on is read as the positive infinity. *)
Lemma toNumber_big (z : Z) :
  2 ^ 1024 <= z ->
  Js.toNumber z = Js.Infinity false /\ Js.isNaN (Js.toNumber z) = false.
Proof.
  intros Hz.
  assert (H53 : 2 ^ 53 < 2 ^ 1024) by (apply Z.pow_lt_mono_r; lia).
  assert (Hpos : 0 < z) by lia.
  assert (E : Js.toNumber z = Js.Infinity false); [|now rewrite E].
  unfold Js.toNumber. rewrite Z.abs_eq by lia.
  destruct (Z.ltb_spec z (2 ^ 53)) as [?|_]; [lia|].
  assert (Hl : 1024 <= Z.log2 z) by (apply Z.log2_le_pow2; lia).
  set (e := Z.log2 z - 52).
  assert (He : 0 <= e) by (unfold e; lia).
  assert (HP : 0 < 2 ^ e) by (apply Z.pow_pos_nonneg; lia).
  pose proof (nearest_bounds z (2 ^ e) (Z.lt_le_incl _ _ Hpos) HP) as [Hlo _].
  destruct (Z.log2_spec z Hpos) as [Hlow _].
  assert (Hq : 2 ^ 52 <= z / 2 ^ e).
  { apply Z.div_le_lower_bound; [exact HP|].
    rewrite <- Z.pow_add_r by lia. replace (e + 52) with (Z.log2 z) by (unfold e; lia).
    exact Hlow. }
  assert (Hm : 2 ^ 1024 <= Js.nearest z (2 ^ e) * 2 ^ e).
  { apply Z.le_trans with (2 ^ 52 * 2 ^ e).
    - rewrite <- Z.pow_add_r by lia. apply Z.pow_le_mono_r; unfold e; lia.
    - apply Z.mul_le_mono_nonneg_r; lia. }
  destruct (Z.leb_spec (2 ^ 1024) (Js.nearest z (2 ^ e) * 2 ^ e)) as [_|?]; [|lia].
  destruct (Z.ltb_spec z 0); [lia | reflexivity].
Qed.

(** X16: [idSchema] accepts a path parameter exactly when, after leading
    white space and one sign, it starts with a decimal digit; what it returns
    is then never [NaN]: it is the number that stands for the digits read,
    which is an infinity for digits that denote 2^1024 or more (the
    refinement [!isNaN] lets it through, and the users router then calls the
    store with it). *)
Theorem idSchema_accepts_numbers (id : string) :
  (startsWithDigit (snd (Js.stripSign (Js.trimStart id))) = true ->
   exists v, Users.idSchema_parse id = inr v /\ Js.isNaN v = false)
  /\ (forall v, Users.idSchema_parse id = inr v ->
                Js.isNaN v = false
                /\ startsWithDigit (snd (Js.stripSign (Js.trimStart id))) = true)
  /\ (forall d : Decimal.uint,
      d <> Decimal.Nil -> 2 ^ 1024 <= uint_value 0 d ->
      Users.idSchema_parse (NilEmpty.string_of_uint d) = inr (Js.Infinity false)).
Proof.
  assert (Big : forall d : Decimal.uint,
             d <> Decimal.Nil -> 2 ^ 1024 <= uint_value 0 d ->
             Users.idSchema_parse (NilEmpty.string_of_uint d) = inr (Js.Infinity false)).
  { intros d Hd Hbig. unfold Users.idSchema_parse.
    rewrite (proj1 (parseInt_uint d (Some 10) Hd (or_intror eq_refl))).
    now rewrite (proj1 (toNumber_big _ Hbig)). }
  pose proof (parseInt10_NaN id) as H. unfold Users.idSchema_parse.
  destruct (Js.parseInt id (Some 10)) as [|n|b] eqn:E; simpl;
    (split; [|split; [|exact Big]]).
  - intros Hd. rewrite (proj1 H eq_refl) in Hd. discriminate.
  - intros v Hv. discriminate.
  - intros _. now eexists.
  - intros v Hv. inversion Hv; subst v. split; [reflexivity|].
    destruct (startsWithDigit _); [reflexivity|].
    discriminate (proj2 H eq_refl).
  - intros _. now eexists.
  - intros v Hv. inversion Hv; subst v. split; [reflexivity|].
    destruct (startsWithDigit _); [reflexivity|].
    discriminate (proj2 H eq_refl).
Qed.

Lemma idSchema_accepts_numbers_witness :
  exists v, Users.idSchema_parse " +7" = inr v /\ Js.isNaN v = false.
Proof.
  apply (proj1 (idSchema_accepts_numbers " +7")). reflexivity.
Defined.

(** The id of 310 digits is read as the positive infinity: [idSchema] accepts
    it, and both routers call the store with it and answer 500. *)
Example long_id_is_infinite :
  Users.idSchema_parse long_id = inr (Js.Infinity false)
  /\ Users.delete_users Users.mem long_id one_user
     = (mkResponse 500 (Object [("error", VString "Internal Server Error")]), one_user)
  /\ Products.delete_products Products.mem long_id one_product
     = (mkResponse 500
          (Object [("status", VString "error");
                   ("message", VString "Gagal menghapus produk")]),
        one_product).
Proof. repeat split; vm_compute; reflexivity. Qed.
